(** * SPL-token instruction codec: byte-exact payloads and account roles

    A shallow embedding of the hand-written instruction constructors of
    [src/spl-token-manual.ts], [src/spl-mint-manual.ts] and the third manual
    script (token accounts for an existing mint), together with the
    properties stated about them.

    The constructors are TypeScript closures that allocate a Node.js
    [Buffer], fill it through a running [offset] variable and wrap it in a
    [TransactionInstruction].  Buffers are mutable objects, so they live in
    an explicit store and every constructor is a computation over that
    store that may raise an exception. *)

From Stdlib Require Import Ascii.
From stdpp Require Import base numbers option list strings gmap sets.

Local Open Scope Z_scope.
#[local] Set Warnings "-clear-no-such-hyp".

(** ** Fixed-width integers as bytes *)

(** The [n] low bytes of [v], least significant first: byte [i] is
    [(v >> 8*i) & 0xff]. *)
Fixpoint le_bytes (n : nat) (v : Z) : list Z :=
  match n with
  | O => []
  | S n' => Z.land v 255 :: le_bytes n' (Z.shiftr v 8)
  end.

(** The number a little-endian byte sequence denotes. *)
Fixpoint le_value (bs : list Z) : Z :=
  match bs with
  | [] => 0
  | b :: bs' => b + 256 * le_value bs'
  end.

(** The number a big-endian byte sequence denotes, continuing from [acc]. *)
Fixpoint be_value (acc : Z) (bs : list Z) : Z :=
  match bs with
  | [] => acc
  | b :: bs' => be_value (acc * 256 + b) bs'
  end.

(** ** Identities *)

(** [bs58.decode] of the bs58 package, which the scripts import and
    [new PublicKey(string)] uses; its code is not under src/.  A string of
    base-58 digits denotes a number; every leading '1' stands for one
    leading zero byte, the rest is the shortest big-endian form of the
    number. *)
Module Base58.

(** The Bitcoin alphabet used by [bs58]. *)
Definition ALPHABET : string :=
  "123456789ABCDEFGHJKLMNPQRSTUVWXYZabcdefghijkmnopqrstuvwxyz".

Fixpoint index_of (c : ascii) (s : string) (i : Z) : option Z :=
  match s with
  | EmptyString => None
  | String d s' => if Ascii.eqb c d then Some i else index_of c s' (i + 1)
  end.

Definition digit (c : ascii) : option Z := index_of c ALPHABET 0.

(** Number denoted by the digits, most significant first. *)
Fixpoint value_from (acc : Z) (s : string) : option Z :=
  match s with
  | EmptyString => Some acc
  | String c s' =>
      match digit c with
      | Some d => value_from (acc * 58 + d) s'
      | None => None
      end
  end.

(** Every leading '1' stands for one leading zero byte. *)
Fixpoint leading_ones (s : string) : nat :=
  match s with
  | String "1"%char s' => S (leading_ones s')
  | _ => O
  end.

(** Number of bytes of the shortest big-endian representation. *)
Definition byte_length (v : Z) : nat :=
  if decide (v <= 0) then O else Z.to_nat (Z.log2 v / 8 + 1).

Definition decode (s : string) : option (list Z) :=
  v ← value_from 0 s;
  Some (replicate (leading_ones s) 0 ++ reverse (le_bytes (byte_length v) v)).

End Base58.

(** Modelled from the spec: the 32-byte public identifier of an account
    ([PublicKey] of @solana/web3.js, whose code is not under src/).  The
    identifier is kept as the big number its 32 bytes denote;
    [toBuffer] gives the 32 bytes back, most significant first. *)
Record PublicKey : Type := mkPublicKey { bn : Z }.

#[global] Instance PublicKey_eq_dec : EqDecision PublicKey.
Proof. solve_decision. Defined.

#[global] Instance PublicKey_countable : Countable PublicKey.
Proof. apply (inj_countable' bn mkPublicKey). by intros []. Defined.

Definition PUBLIC_KEY_LENGTH : nat := 32.

(** Modelled from the spec: an identity is 32 bytes.  [new PublicKey(value)]
    of @solana/web3.js (not under src/) on a base-58 string: the decoded
    bytes must be exactly 32, anything else is refused. *)
Definition PublicKey_new (value : string) : option PublicKey :=
  decoded ← Base58.decode value;
  if decide (length decoded = PUBLIC_KEY_LENGTH)
  then Some (mkPublicKey (be_value 0 decoded))
  else None.

(** Modelled from the spec: the 32 raw bytes of an identity
    ([PublicKey.toBuffer] of @solana/web3.js, not under src/).  The
    temporary buffer it returns is never written to nor kept, so it is a
    value here and not an object of the store. *)
Definition toBuffer (k : PublicKey) : list Z :=
  reverse (le_bytes PUBLIC_KEY_LENGTH (bn k)).

(** The constants of the scripts.  Each is the value of the [new PublicKey]
    expression of the source (see [TOKEN_PROGRAM_ID_new] and its siblings
    below). *)
Definition TOKEN_PROGRAM_ID : PublicKey :=
  Eval vm_compute in
    default (mkPublicKey 0)
      (PublicKey_new "TokenkegQfeZyiNwAJbNbGKPFXCWuBvf9Ss623VQ5DA").

Definition SYSVAR_RENT_PUBKEY : PublicKey :=
  Eval vm_compute in
    default (mkPublicKey 0)
      (PublicKey_new "SysvarRent111111111111111111111111111111111").

(** Modelled from the spec: the identity of the "ledger-account-lifecycle"
    program, [SystemProgram.programId] of @solana/web3.js (imported by the
    scripts, not under src/); its published address is thirty-two '1's. *)
Definition SystemProgram_programId : PublicKey :=
  Eval vm_compute in
    default (mkPublicKey 0)
      (PublicKey_new "11111111111111111111111111111111").

Definition TOKEN_INSTRUCTION_INITIALIZE_MINT : Z := 0.
Definition TOKEN_INSTRUCTION_INITIALIZE_ACCOUNT : Z := 1.
Definition TOKEN_INSTRUCTION_TRANSFER : Z := 3.
Definition TOKEN_INSTRUCTION_MINT_TO : Z := 7.

(** ** The store of buffers *)

(** What a buffer operation did, in the order it happened.  The trace is
    ghost state: the scripts do not keep it, it only records the order of
    the allocations and writes they perform. *)
Inductive Event : Type :=
  | EvAlloc (buf : nat) (size : nat)
  | EvWrite (buf : nat) (offset width : nat).

Definition ev_buf (e : Event) : nat :=
  match e with
  | EvAlloc b _ => b
  | EvWrite b _ _ => b
  end.

(** Buffers are objects with identity: a reference is an index into the
    heap, and a write through a reference is seen through every alias. *)
Record Store : Type := mkStore {
  heap : list (list Z);
  trace : list Event
}.

(** The failures of the codec and of the batch composer. *)
Inductive Exception : Type :=
  | SchemaViolation
  | DomainViolation
  | BatchStateViolation.

Inductive Outcome (A : Type) : Type :=
  | Returned (a : A)
  | Thrown (e : Exception).
Arguments Returned {A} a.
Arguments Thrown {A} e.

Definition M (A : Type) : Type := Store → Outcome A * Store.

#[global] Instance M_ret : MRet M := λ A a σ, (Returned a, σ).

#[global] Instance M_bind : MBind M := λ A B k m σ,
  match m σ with
  | (Returned a, σ') => k a σ'
  | (Thrown e, σ') => (Thrown e, σ')
  end.

Definition throw {A} (e : Exception) : M A := λ σ, (Thrown e, σ).

(** ** Fixed-width encoder *)

(** Modelled from the spec: the fixed-width encoder of section 4.1.  In the
    scripts it is the [Buffer] of the Node.js runtime ([Buffer.alloc],
    [writeUInt8], [writeUInt32LE], [writeBigUInt64LE], [copy]), whose code is
    not under src/.  A write places the value in little-endian order at the
    given offset and returns the next free offset; a value outside the range
    of its field is a domain violation; insufficient destination space is a
    schema violation and nothing is written. *)
Definition Buffer_alloc (size : nat) : M nat := λ σ,
  let buf := length (heap σ) in
  (Returned buf,
   {| heap := heap σ ++ [replicate size 0];
      trace := trace σ ++ [EvAlloc buf size] |}).

(** Modelled from the spec: the common part of the writes of section 4.1,
    absent from src/ like the rest of [Buffer]: [bytes] go to [offset]
    and the following positions of the buffer, whose length stays what it
    was; the next free offset is returned.  Insufficient space is a schema
    violation that leaves the store untouched. *)
Definition write_bytes (buf : nat) (bytes : list Z) (offset : nat) : M nat := λ σ,
  match heap σ !! buf with
  | Some b =>
      if decide (offset + length bytes ≤ length b)%nat
      then (Returned (offset + length bytes)%nat,
            {| heap := <[buf := list_inserts offset bytes b]> (heap σ);
               trace := trace σ ++ [EvWrite buf offset (length bytes)] |})
      else (Thrown SchemaViolation, σ)
  | None => (Thrown SchemaViolation, σ)
  end.

(** Modelled from the spec: an unsigned integer of [width] bytes, written
    least significant byte first ([Buffer.writeUInt8], [writeUInt32LE] and
    [writeBigUInt64LE] of Node.js, absent from src/).  The value is checked
    against the range of the field before anything is written. *)
Definition write_uint (width : nat) (buf : nat) (value : Z) (offset : nat) : M nat :=
  if decide (0 ≤ value ≤ 2 ^ (8 * Z.of_nat width) - 1)
  then write_bytes buf (le_bytes width value) offset
  else throw DomainViolation.

(** Modelled from the spec: the 1-byte write of section 4.1
    ([data.writeUInt8(value, offset)], absent from src/). *)
Definition writeUInt8 : nat → Z → nat → M nat := write_uint 1.

(** Modelled from the spec: the 4-byte write of section 4.1
    ([data.writeUInt32LE(value, offset)], absent from src/). *)
Definition writeUInt32LE : nat → Z → nat → M nat := write_uint 4.

(** Modelled from the spec: the 8-byte write of section 4.1
    ([data.writeBigUInt64LE(value, offset)], absent from src/); amounts
    outside the unsigned 64-bit range are a domain violation. *)
Definition writeBigUInt64LE : nat → Z → nat → M nat := write_uint 8.

(** Modelled from the spec: the 32-byte raw identifier copy of section 4.1
    ([source.copy(target, targetStart)], absent from src/); no encoding. *)
Definition copy (source : list Z) (target : nat) (targetStart : nat) : M nat :=
  write_bytes target source targetStart.

(** [BigInt(x)] on an integral [number | bigint] argument is that integer
    (numbers with a fraction, on which it raises, are outside the model). *)
Definition BigInt (x : Z) : Z := x.

(** ** Instruction descriptors *)

(** One entry of [keys]: [{ pubkey, isSigner, isWritable }]. *)
Record AccountMeta : Type := mkAccountMeta {
  pubkey : PublicKey;
  isSigner : bool;
  isWritable : bool
}.

(** [TransactionInstruction]: [data] is a reference to the buffer that the
    constructor allocated. *)
Record TransactionInstruction : Type := mkTransactionInstruction {
  programId : PublicKey;
  keys : list AccountMeta;
  data : nat
}.

(** ** The five instruction constructors *)

(** [createAccountInstruction], identical in the three manual scripts. *)
Definition createAccountInstruction
    (fromPubkey newAccountPubkey : PublicKey) (lamports space : Z)
    (owner : PublicKey) : M TransactionInstruction :=
  let CREATE_ACCOUNT_INDEX := 0 in
  data ← Buffer_alloc (4 + 8 + 8 + 32);
  let offset := 0%nat in
  _ ← writeUInt32LE data CREATE_ACCOUNT_INDEX offset;
  let offset := (offset + 4)%nat in
  _ ← writeBigUInt64LE data (BigInt lamports) offset;
  let offset := (offset + 8)%nat in
  _ ← writeBigUInt64LE data (BigInt space) offset;
  let offset := (offset + 8)%nat in
  _ ← copy (toBuffer owner) data offset;
  let offset := (offset + 32)%nat in
  mret {| programId := SystemProgram_programId;
          keys := [ {| pubkey := fromPubkey; isSigner := true; isWritable := true |};
                    {| pubkey := newAccountPubkey; isSigner := true; isWritable := true |} ];
          data := data |}.

(** [freezeAuthority ? 1 : 0] and the conditional that sizes the buffer. *)
Definition freezeAuthOption (freezeAuthority : option PublicKey) : Z :=
  match freezeAuthority with Some _ => 1 | None => 0 end.

Definition dataLength (freezeAuthority : option PublicKey) : nat :=
  match freezeAuthority with
  | Some _ => (1 + 1 + 32 + 1 + 32)%nat
  | None => (1 + 1 + 32 + 1)%nat
  end.

(** [createInitializeMintInstruction], identical in spl-token-manual.ts and
    spl-mint-manual.ts. *)
Definition createInitializeMintInstruction
    (mintPubkey : PublicKey) (decimals : Z) (mintAuthority : PublicKey)
    (freezeAuthority : option PublicKey) : M TransactionInstruction :=
  data ← Buffer_alloc (dataLength freezeAuthority);
  let offset := 0%nat in
  _ ← writeUInt8 data TOKEN_INSTRUCTION_INITIALIZE_MINT offset;
  let offset := (offset + 1)%nat in
  _ ← writeUInt8 data decimals offset;
  let offset := (offset + 1)%nat in
  _ ← copy (toBuffer mintAuthority) data offset;
  let offset := (offset + 32)%nat in
  _ ← writeUInt8 data (freezeAuthOption freezeAuthority) offset;
  let offset := (offset + 1)%nat in
  _ ← match freezeAuthority with
      | Some freezeAuthority => copy (toBuffer freezeAuthority) data offset
      | None => mret offset
      end;
  mret {| programId := TOKEN_PROGRAM_ID;
          keys := [ {| pubkey := mintPubkey; isSigner := false; isWritable := true |};
                    {| pubkey := SYSVAR_RENT_PUBKEY; isSigner := false; isWritable := false |} ];
          data := data |}.

(** [createInitializeAccountInstruction], [createMintToInstruction] and
    [createTransferInstruction], identical in spl-token-manual.ts and in the
    script for an existing mint. *)
Definition createInitializeAccountInstruction
    (tokenAccountPubkey mintPubkey ownerPubkey : PublicKey)
    : M TransactionInstruction :=
  data ← Buffer_alloc 1;
  _ ← writeUInt8 data TOKEN_INSTRUCTION_INITIALIZE_ACCOUNT 0;
  mret {| programId := TOKEN_PROGRAM_ID;
          keys := [ {| pubkey := tokenAccountPubkey; isSigner := false; isWritable := true |};
                    {| pubkey := mintPubkey; isSigner := false; isWritable := false |};
                    {| pubkey := ownerPubkey; isSigner := false; isWritable := false |};
                    {| pubkey := SYSVAR_RENT_PUBKEY; isSigner := false; isWritable := false |} ];
          data := data |}.

Definition createMintToInstruction
    (mintPubkey destTokenAccountPubkey mintAuthorityPubkey : PublicKey)
    (amount : Z) : M TransactionInstruction :=
  data ← Buffer_alloc (1 + 8);
  let offset := 0%nat in
  _ ← writeUInt8 data TOKEN_INSTRUCTION_MINT_TO offset;
  let offset := (offset + 1)%nat in
  _ ← writeBigUInt64LE data amount offset;
  let offset := (offset + 8)%nat in
  mret {| programId := TOKEN_PROGRAM_ID;
          keys := [ {| pubkey := mintPubkey; isSigner := false; isWritable := true |};
                    {| pubkey := destTokenAccountPubkey; isSigner := false; isWritable := true |};
                    {| pubkey := mintAuthorityPubkey; isSigner := true; isWritable := false |} ];
          data := data |}.

Definition createTransferInstruction
    (sourceTokenAccountPubkey destTokenAccountPubkey ownerPubkey : PublicKey)
    (amount : Z) : M TransactionInstruction :=
  data ← Buffer_alloc (1 + 8);
  let offset := 0%nat in
  _ ← writeUInt8 data TOKEN_INSTRUCTION_TRANSFER offset;
  let offset := (offset + 1)%nat in
  _ ← writeBigUInt64LE data amount offset;
  let offset := (offset + 8)%nat in
  mret {| programId := TOKEN_PROGRAM_ID;
          keys := [ {| pubkey := sourceTokenAccountPubkey; isSigner := false; isWritable := true |};
                    {| pubkey := destTokenAccountPubkey; isSigner := false; isWritable := true |};
                    {| pubkey := ownerPubkey; isSigner := true; isWritable := false |} ];
          data := data |}.

(** ** What a constructor hands to its caller *)

(** The instruction descriptor as a value: target identity, account
    references in order, and the bytes behind [data]. *)
Record InstructionDescriptor : Type := mkInstructionDescriptor {
  target : PublicKey;
  accounts : list AccountMeta;
  payload : list Z
}.

Definition descriptor (σ : Store) (ix : TransactionInstruction)
    : InstructionDescriptor :=
  {| target := programId ix;
     accounts := keys ix;
     payload := default [] (heap σ !! data ix) |}.

(** Run a constructor from a store and read the descriptor it returns. *)
Definition describe (m : M TransactionInstruction) (σ : Store)
    : Outcome InstructionDescriptor :=
  match m σ with
  | (Returned ix, σ') => Returned (descriptor σ' ix)
  | (Thrown e, _) => Thrown e
  end.

Definition empty_store : Store := {| heap := []; trace := [] |}.

(** The bytes of the optional field: the discriminant, then the identity
    when there is one. *)
Definition freeze_bytes (freezeAuthority : option PublicKey) : list Z :=
  freezeAuthOption freezeAuthority ::
  match freezeAuthority with
  | Some freezeAuthority => toBuffer freezeAuthority
  | None => []
  end.

Definition freeze_events (buf : nat) (freezeAuthority : option PublicKey) : list Event :=
  match freezeAuthority with
  | Some _ => [EvWrite buf 35 32]
  | None => []
  end.

(** ** The five operation kinds *)

(** A call of one of the five constructors with its arguments. *)
Inductive Operation : Type :=
  | AccountAllocation (fromPubkey newAccountPubkey : PublicKey)
      (lamports space : Z) (owner : PublicKey)
  | InitializeMint (mintPubkey : PublicKey) (decimals : Z)
      (mintAuthority : PublicKey) (freezeAuthority : option PublicKey)
  | InitializeAccount (tokenAccountPubkey mintPubkey ownerPubkey : PublicKey)
  | MintTo (mintPubkey destTokenAccountPubkey mintAuthorityPubkey : PublicKey)
      (amount : Z)
  | Transfer (sourceTokenAccountPubkey destTokenAccountPubkey ownerPubkey : PublicKey)
      (amount : Z).

Definition construct (op : Operation) : M TransactionInstruction :=
  match op with
  | AccountAllocation fromPubkey newAccountPubkey lamports space owner =>
      createAccountInstruction fromPubkey newAccountPubkey lamports space owner
  | InitializeMint mintPubkey decimals mintAuthority freezeAuthority =>
      createInitializeMintInstruction mintPubkey decimals mintAuthority freezeAuthority
  | InitializeAccount tokenAccountPubkey mintPubkey ownerPubkey =>
      createInitializeAccountInstruction tokenAccountPubkey mintPubkey ownerPubkey
  | MintTo mintPubkey dest authority amount =>
      createMintToInstruction mintPubkey dest authority amount
  | Transfer source dest owner amount =>
      createTransferInstruction source dest owner amount
  end.

(** What a call returns, up to the reference of the buffer it allocated:
    an exception, or the target and the account references. *)
Definition outcome_at (r : Exception + PublicKey * list AccountMeta) (buf : nat)
    : Outcome TransactionInstruction :=
  match r with
  | inl e => Thrown e
  | inr (pid, ks) => Returned {| programId := pid; keys := ks; data := buf |}
  end.

(** ** Atomic batch composer *)

(** Modelled from the spec: the batch composer of section 4.3.  In the
    scripts the batch is the [Transaction] of @solana/web3.js
    ([new Transaction()], [add], [recentBlockhash], [feePayer], [sign],
    [serialize]), whose code is not under src/; only these calls are.  A
    batch is an ordered list of instructions that is appended to until it
    is finalized, which attaches the fee payer and the freshness token. *)
Record Batch : Type := mkBatch {
  instructions : list TransactionInstruction;
  feePayer : option PublicKey;
  recentBlockhash : option string;
  finalized : bool
}.

Definition new_Transaction : Batch :=
  {| instructions := []; feePayer := None; recentBlockhash := None;
     finalized := false |}.

(** Modelled from the spec: append, the only mutation before finalize;
    after finalize it fails with an invalid-state error. *)
Definition add (items : list TransactionInstruction) (b : Batch)
    : Outcome () * Batch :=
  if finalized b
  then (Thrown BatchStateViolation, b)
  else (Returned (),
        {| instructions := instructions b ++ items;
           feePayer := feePayer b;
           recentBlockhash := recentBlockhash b;
           finalized := false |}).

(** Modelled from the spec: finalize requires a non-empty instruction
    list, a fee-payer identity and a freshness token; on a batch that is
    already finalized it changes nothing when the token is the one
    attached, and fails when the token differs. *)
Definition finalize (payer : option PublicKey) (token : option string)
    (b : Batch) : Outcome () * Batch :=
  match instructions b, payer, token with
  | _ :: _, Some p, Some t =>
      if finalized b
      then if decide (recentBlockhash b = Some t)
           then (Returned (), b)
           else (Thrown BatchStateViolation, b)
      else (Returned (),
            {| instructions := instructions b;
               feePayer := Some p;
               recentBlockhash := Some t;
               finalized := true |})
  | _, _, _ => (Thrown BatchStateViolation, b)
  end.

(** Modelled from the spec: the required-signer set, the union over all
    instructions of the identities referenced with [isSigner = true]. *)
Definition signers_of (ix : TransactionInstruction) : gset PublicKey :=
  list_to_set (pubkey <$> filter (λ m, isSigner m = true) (keys ix)).

Definition requiredSigners (b : Batch) : gset PublicKey :=
  ⋃ (signers_of <$> instructions b).

(** A batch with one transfer instruction, finalized. *)
Definition finalized_example : Batch :=
  {| instructions :=
       [ {| programId := TOKEN_PROGRAM_ID;
            keys := [ {| pubkey := mkPublicKey 1; isSigner := false; isWritable := true |};
                      {| pubkey := mkPublicKey 2; isSigner := false; isWritable := true |};
                      {| pubkey := mkPublicKey 3; isSigner := true; isWritable := false |} ];
            data := 0 |} ];
     feePayer := Some (mkPublicKey 3);
     recentBlockhash := Some "EkSnNWid2cvwEVnVx9aBqawnmiCNiDgp3gUdkDPTKN1N"%string;
     finalized := true |}.

(** ** The batches the scripts build *)

(** spl-mint-manual.ts: allocate the mint account, then initialize it. *)
Definition mint_manual_instructions (payer mint : PublicKey) (mintRent : Z)
    : M (list TransactionInstruction) :=
  let decimals := 9 in
  createMintAccountIx ←
    createAccountInstruction payer mint mintRent 82 TOKEN_PROGRAM_ID;
  initMintIx ← createInitializeMintInstruction mint decimals payer None;
  mret [createMintAccountIx; initMintIx].

(** [transaction.sign(payer, mint)] *)
Definition mint_manual_signers (payer mint : PublicKey) : list PublicKey :=
  [payer; mint].

(** spl-token-manual.ts: mint, two token accounts, mint-to and transfer in
    one batch. *)
Definition token_manual_instructions
    (payer receiverPubkey mint tokenAccountA tokenAccountB : PublicKey)
    (mintRent tokenAccountRent : Z) : M (list TransactionInstruction) :=
  let decimals := 9 in
  createMintAccountIx ←
    createAccountInstruction payer mint mintRent 82 TOKEN_PROGRAM_ID;
  createTokenAccountAIx ←
    createAccountInstruction payer tokenAccountA tokenAccountRent 165 TOKEN_PROGRAM_ID;
  createTokenAccountBIx ←
    createAccountInstruction payer tokenAccountB tokenAccountRent 165 TOKEN_PROGRAM_ID;
  initMintIx ← createInitializeMintInstruction mint decimals payer None;
  initAccountAIx ← createInitializeAccountInstruction tokenAccountA mint payer;
  initAccountBIx ← createInitializeAccountInstruction tokenAccountB mint receiverPubkey;
  let amountToMint := 10 * 10 ^ BigInt decimals in
  mintToIx ← createMintToInstruction mint tokenAccountA payer amountToMint;
  let amountToTransfer := 3 * 10 ^ BigInt decimals in
  transferIx ←
    createTransferInstruction tokenAccountA tokenAccountB payer amountToTransfer;
  mret [createMintAccountIx; createTokenAccountAIx; createTokenAccountBIx;
        initMintIx; initAccountAIx; initAccountBIx; mintToIx; transferIx].

(** [transaction.sign(payer, mint, tokenAccountA, tokenAccountB)] *)
Definition token_manual_signers
    (payer mint tokenAccountA tokenAccountB : PublicKey) : list PublicKey :=
  [payer; mint; tokenAccountA; tokenAccountB].

(** ** Argument domains, closed forms and batches of calls *)

(** The arguments on which the integer writes of a constructor are in the
    range of their fields. *)
Definition in_domain (op : Operation) : Prop :=
  match op with
  | AccountAllocation _ _ lamports space _ =>
      0 ≤ lamports ≤ 2 ^ 64 - 1 ∧ 0 ≤ space ≤ 2 ^ 64 - 1
  | InitializeMint _ decimals _ _ => 0 ≤ decimals ≤ 255
  | InitializeAccount _ _ _ => True
  | MintTo _ _ _ amount => 0 ≤ amount ≤ 2 ^ 64 - 1
  | Transfer _ _ _ amount => 0 ≤ amount ≤ 2 ^ 64 - 1
  end.

(** An identity that fits its 32 bytes. *)
Definition is_identity (k : PublicKey) : Prop := 0 ≤ bn k ≤ 2 ^ 256 - 1.

(** The identities a constructor copies into the payload fit 32 bytes. *)
Definition payload_identities (op : Operation) : Prop :=
  match op with
  | AccountAllocation _ _ _ _ owner => is_identity owner
  | InitializeMint _ _ mintAuthority freezeAuthority =>
      is_identity mintAuthority ∧
      match freezeAuthority with
      | Some freezeAuthority => is_identity freezeAuthority
      | None => True
      end
  | _ => True
  end.

(** The writes [evs] into [buf] follow one another without gap or overlap,
    from offset [start] up to offset [stop]. *)
Fixpoint tiles (buf : nat) (start : nat) (evs : list Event) (stop : nat) : Prop :=
  match evs with
  | [] => start = stop
  | EvWrite b offset width :: evs' =>
      b = buf ∧ offset = start ∧ tiles buf (start + width) evs' stop
  | EvAlloc _ _ :: _ => False
  end.

(** Constructor calls made one after the other, results collected in
    order, as the scripts do before [transaction.add]. *)
Fixpoint construct_all (ops : list Operation) : M (list TransactionInstruction) :=
  match ops with
  | [] => mret []
  | op :: ops' =>
      ix ← construct op;
      ixs ← construct_all ops';
      mret (ix :: ixs)
  end.

(** The identities referenced with [isSigner: true] by the instructions. *)
Definition flagged_signers (ixs : list TransactionInstruction) : list PublicKey :=
  ix ← ixs; pubkey <$> filter (λ m, isSigner m = true) (keys ix).

(** Instruction [j] of the list creates the account [k]: it is addressed
    to the system program and [k] is its new account. *)
Definition creates_account (ixs : list TransactionInstruction) (j : nat)
    (k : PublicKey) : Prop :=
  ∃ jx, ixs !! j = Some jx ∧
        programId jx = SystemProgram_programId ∧
        keys jx !! 1%nat = Some {| pubkey := k; isSigner := true; isWritable := true |}.

(** * Properties *)

(** ** Constants *)

Lemma TOKEN_PROGRAM_ID_new :
  PublicKey_new "TokenkegQfeZyiNwAJbNbGKPFXCWuBvf9Ss623VQ5DA" = Some TOKEN_PROGRAM_ID.
Proof. vm_compute. reflexivity. Qed.

Lemma SYSVAR_RENT_PUBKEY_new :
  PublicKey_new "SysvarRent111111111111111111111111111111111" = Some SYSVAR_RENT_PUBKEY.
Proof. vm_compute. reflexivity. Qed.

Lemma SystemProgram_programId_new :
  PublicKey_new "11111111111111111111111111111111" = Some SystemProgram_programId.
Proof. vm_compute. reflexivity. Qed.

(** The placeholder of the third script is not a base-58 string, so its
    [new PublicKey] is refused. *)
Lemma MINT_ADDRESS_placeholder_refused :
  PublicKey_new "PASTE_YOUR_MINT_ADDRESS_HERE" = None.
Proof. vm_compute. reflexivity. Qed.

(** ** Bytes *)

Lemma length_le_bytes n v : length (le_bytes n v) = n.
Proof. revert v. induction n as [|n IH]; intros v; simpl; [done | by rewrite IH]. Qed.

Lemma length_toBuffer k : length (toBuffer k) = 32%nat.
Proof. unfold toBuffer. by rewrite length_reverse, length_le_bytes. Qed.

Lemma le_bytes_range n v : Forall (λ b, 0 ≤ b ≤ 255) (le_bytes n v).
Proof.
  revert v. induction n as [|n IH]; intros v; simpl; constructor; [|apply IH].
  change 255 with (Z.ones 8). rewrite Z.land_ones by lia.
  change (Z.ones 8) with 255. pose proof (Z.mod_pos_bound v (2 ^ 8)). lia.
Qed.

Lemma lookup_le_bytes n v i :
  (i < n)%nat → le_bytes n v !! i = Some (Z.land (Z.shiftr v (8 * Z.of_nat i)) 255).
Proof.
  revert v i. induction n as [|n IH]; intros v i Hi; [lia|].
  destruct i as [|i]; cbn [le_bytes lookup list_lookup].
  - by rewrite Z.shiftr_0_r.
  - rewrite IH by lia. rewrite Z.shiftr_shiftr by lia.
    do 3 f_equal. lia.
Qed.

Lemma le_value_le_bytes n v : le_value (le_bytes n v) = v mod 2 ^ (8 * Z.of_nat n).
Proof.
  revert v. induction n as [|n IH]; intros v.
  - simpl. by rewrite Z.mod_1_r.
  - cbn [le_bytes le_value]. rewrite IH.
    change 255 with (Z.ones 8). rewrite Z.land_ones, Z.shiftr_div_pow2 by lia.
    replace (8 * Z.of_nat (S n)) with (8 + 8 * Z.of_nat n) by lia.
    rewrite Z.pow_add_r by lia.
    rewrite (Z.rem_mul_r v (2 ^ 8) (2 ^ (8 * Z.of_nat n))) by lia.
    change (2 ^ 8) with 256. lia.
Qed.

Lemma le_value_le_bytes_u64 v : 0 ≤ v ≤ 2 ^ 64 - 1 → le_value (le_bytes 8 v) = v.
Proof.
  intros Hv. rewrite le_value_le_bytes. change (8 * Z.of_nat 8) with 64.
  apply Z.mod_small. lia.
Qed.

(** ** One step of the encoder on the buffer allocated last *)

Lemma write_bytes_fresh h tr b bytes off :
  (off + length bytes ≤ length b)%nat →
  write_bytes (length h) bytes off {| heap := h ++ [b]; trace := tr |} =
  (Returned (off + length bytes)%nat,
   {| heap := h ++ [list_inserts off bytes b];
      trace := tr ++ [EvWrite (length h) off (length bytes)] |}).
Proof.
  intros Hfit. unfold write_bytes. cbn [heap trace].
  rewrite list_lookup_middle by done.
  rewrite decide_True by done.
  do 2 f_equal. f_equal.
  replace (length h) with (length h + 0)%nat at 1 by lia.
  by rewrite insert_app_r.
Qed.

Lemma write_uint_fresh w h tr b v off :
  0 ≤ v ≤ 2 ^ (8 * Z.of_nat w) - 1 →
  (off + w ≤ length b)%nat →
  write_uint w (length h) v off {| heap := h ++ [b]; trace := tr |} =
  (Returned (off + w)%nat,
   {| heap := h ++ [list_inserts off (le_bytes w v) b];
      trace := tr ++ [EvWrite (length h) off w] |}).
Proof.
  intros Hv Hfit. unfold write_uint. rewrite decide_True by done.
  rewrite write_bytes_fresh by (by rewrite length_le_bytes).
  by rewrite length_le_bytes.
Qed.

Lemma write_uint_domain w buf v off σ :
  ¬ (0 ≤ v ≤ 2 ^ (8 * Z.of_nat w) - 1) →
  write_uint w buf v off σ = (Thrown DomainViolation, σ).
Proof. intros Hv. unfold write_uint. by rewrite decide_False. Qed.

Lemma copy_fresh h tr b source off :
  (off + length source ≤ length b)%nat →
  copy source (length h) off {| heap := h ++ [b]; trace := tr |} =
  (Returned (off + length source)%nat,
   {| heap := h ++ [list_inserts off source b];
      trace := tr ++ [EvWrite (length h) off (length source)] |}).
Proof. apply write_bytes_fresh. Qed.

(** Rewrite the next encoder call of a constructor body, then reduce the
    bind around it. *)
Ltac fits :=
  rewrite ?length_inserts, ?length_replicate, ?length_toBuffer, ?length_le_bytes;
  cbn; lia.

Ltac in_domain :=
  first [ assumption | vm_compute; split; discriminate ].

Ltac encoder_step :=
  first
    [ rewrite write_uint_fresh by (first [ in_domain | fits ])
    | rewrite copy_fresh by fits ];
  cbv beta iota zeta.

Lemma createMintToInstruction_run mintPubkey dest authority amount σ :
  createMintToInstruction mintPubkey dest authority amount σ =
  let buf := length (heap σ) in
  if decide (0 ≤ amount ≤ 2 ^ 64 - 1)
  then (Returned
          {| programId := TOKEN_PROGRAM_ID;
             keys := [ {| pubkey := mintPubkey; isSigner := false; isWritable := true |};
                       {| pubkey := dest; isSigner := false; isWritable := true |};
                       {| pubkey := authority; isSigner := true; isWritable := false |} ];
             data := buf |},
        {| heap := heap σ ++ [7 :: le_bytes 8 amount];
           trace := trace σ ++ [EvAlloc buf 9; EvWrite buf 0 1; EvWrite buf 1 8] |})
  else (Thrown DomainViolation,
        {| heap := heap σ ++ [7 :: replicate 8 0];
           trace := trace σ ++ [EvAlloc buf 9; EvWrite buf 0 1] |}).
Proof.
  destruct σ as [h tr].
  unfold createMintToInstruction, mbind, M_bind, Buffer_alloc, writeUInt8, writeBigUInt64LE.
  cbn [heap trace]. cbv zeta.
  encoder_step.
  destruct (decide (0 ≤ amount ≤ 2 ^ 64 - 1)) as [Hv|Hv].
  - encoder_step. unfold mret, M_ret. rewrite <- !app_assoc. reflexivity.
  - rewrite write_uint_domain by done. rewrite <- !app_assoc. reflexivity.
Qed.

Lemma createTransferInstruction_run source dest owner amount σ :
  createTransferInstruction source dest owner amount σ =
  let buf := length (heap σ) in
  if decide (0 ≤ amount ≤ 2 ^ 64 - 1)
  then (Returned
          {| programId := TOKEN_PROGRAM_ID;
             keys := [ {| pubkey := source; isSigner := false; isWritable := true |};
                       {| pubkey := dest; isSigner := false; isWritable := true |};
                       {| pubkey := owner; isSigner := true; isWritable := false |} ];
             data := buf |},
        {| heap := heap σ ++ [3 :: le_bytes 8 amount];
           trace := trace σ ++ [EvAlloc buf 9; EvWrite buf 0 1; EvWrite buf 1 8] |})
  else (Thrown DomainViolation,
        {| heap := heap σ ++ [3 :: replicate 8 0];
           trace := trace σ ++ [EvAlloc buf 9; EvWrite buf 0 1] |}).
Proof.
  destruct σ as [h tr].
  unfold createTransferInstruction, mbind, M_bind, Buffer_alloc, writeUInt8, writeBigUInt64LE.
  cbn [heap trace]. cbv zeta.
  encoder_step.
  destruct (decide (0 ≤ amount ≤ 2 ^ 64 - 1)) as [Hv|Hv].
  - encoder_step. unfold mret, M_ret. rewrite <- !app_assoc. reflexivity.
  - rewrite write_uint_domain by done. rewrite <- !app_assoc. reflexivity.
Qed.

Lemma createInitializeAccountInstruction_run tokenAccount mintPubkey owner σ :
  createInitializeAccountInstruction tokenAccount mintPubkey owner σ =
  let buf := length (heap σ) in
  (Returned
     {| programId := TOKEN_PROGRAM_ID;
        keys := [ {| pubkey := tokenAccount; isSigner := false; isWritable := true |};
                  {| pubkey := mintPubkey; isSigner := false; isWritable := false |};
                  {| pubkey := owner; isSigner := false; isWritable := false |};
                  {| pubkey := SYSVAR_RENT_PUBKEY; isSigner := false; isWritable := false |} ];
        data := buf |},
   {| heap := heap σ ++ [[1]];
      trace := trace σ ++ [EvAlloc buf 1; EvWrite buf 0 1] |}).
Proof.
  destruct σ as [h tr].
  unfold createInitializeAccountInstruction, mbind, M_bind, Buffer_alloc, writeUInt8.
  cbn [heap trace]. cbv zeta.
  encoder_step. unfold mret, M_ret. rewrite <- !app_assoc. reflexivity.
Qed.

Lemma le_bytes_1 v : 0 ≤ v ≤ 255 → le_bytes 1 v = [v].
Proof.
  intros Hv. cbn [le_bytes]. f_equal.
  change 255 with (Z.ones 8). rewrite Z.land_ones by lia.
  apply Z.mod_small. change (2 ^ 8) with 256. lia.
Qed.

Lemma createInitializeMintInstruction_run mintPubkey decimals mintAuthority freezeAuthority σ :
  createInitializeMintInstruction mintPubkey decimals mintAuthority freezeAuthority σ =
  let buf := length (heap σ) in
  if decide (0 ≤ decimals ≤ 255)
  then (Returned
          {| programId := TOKEN_PROGRAM_ID;
             keys := [ {| pubkey := mintPubkey; isSigner := false; isWritable := true |};
                       {| pubkey := SYSVAR_RENT_PUBKEY; isSigner := false; isWritable := false |} ];
             data := buf |},
        {| heap := heap σ ++
                   [0 :: decimals :: toBuffer mintAuthority ++ freeze_bytes freezeAuthority];
           trace := trace σ ++
                    [EvAlloc buf (dataLength freezeAuthority); EvWrite buf 0 1;
                     EvWrite buf 1 1; EvWrite buf 2 32; EvWrite buf 34 1] ++
                    freeze_events buf freezeAuthority |})
  else (Thrown DomainViolation,
        {| heap := heap σ ++ [replicate (dataLength freezeAuthority) 0];
           trace := trace σ ++
                    [EvAlloc buf (dataLength freezeAuthority); EvWrite buf 0 1] |}).
Proof.
  destruct σ as [h tr].
  unfold createInitializeMintInstruction, mbind, M_bind, Buffer_alloc, writeUInt8.
  cbn [heap trace]. cbv zeta.
  destruct (decide (0 ≤ decimals ≤ 255)) as [Hd|Hd].
  - destruct freezeAuthority as [freeze|]; cbn [dataLength freezeAuthOption];
      repeat encoder_step; unfold mret, M_ret; cbv beta iota;
      rewrite ?length_toBuffer, <- !app_assoc.
    all: rewrite (le_bytes_1 decimals) by done.
    all: reflexivity.
  - destruct freezeAuthority as [freeze|]; cbn [dataLength freezeAuthOption];
      encoder_step; rewrite write_uint_domain by done;
      rewrite <- !app_assoc; reflexivity.
Qed.

Lemma createAccountInstruction_run fromPubkey newAccountPubkey lamports space owner σ :
  createAccountInstruction fromPubkey newAccountPubkey lamports space owner σ =
  let buf := length (heap σ) in
  if decide (0 ≤ lamports ≤ 2 ^ 64 - 1)
  then
    if decide (0 ≤ space ≤ 2 ^ 64 - 1)
    then (Returned
            {| programId := SystemProgram_programId;
               keys := [ {| pubkey := fromPubkey; isSigner := true; isWritable := true |};
                         {| pubkey := newAccountPubkey; isSigner := true; isWritable := true |} ];
               data := buf |},
          {| heap := heap σ ++
                     [le_bytes 4 0 ++ le_bytes 8 lamports ++ le_bytes 8 space ++ toBuffer owner];
             trace := trace σ ++
                      [EvAlloc buf 52; EvWrite buf 0 4; EvWrite buf 4 8;
                       EvWrite buf 12 8; EvWrite buf 20 32] |})
    else (Thrown DomainViolation,
          {| heap := heap σ ++ [le_bytes 4 0 ++ le_bytes 8 lamports ++ replicate 40 0];
             trace := trace σ ++ [EvAlloc buf 52; EvWrite buf 0 4; EvWrite buf 4 8] |})
  else (Thrown DomainViolation,
        {| heap := heap σ ++ [replicate 52 0];
           trace := trace σ ++ [EvAlloc buf 52; EvWrite buf 0 4] |}).
Proof.
  destruct σ as [h tr].
  unfold createAccountInstruction, mbind, M_bind, Buffer_alloc, writeUInt32LE,
    writeBigUInt64LE, BigInt.
  cbn [heap trace]. cbv zeta.
  encoder_step.
  destruct (decide (0 ≤ lamports ≤ 2 ^ 64 - 1)) as [Hl|Hl].
  - encoder_step.
    destruct (decide (0 ≤ space ≤ 2 ^ 64 - 1)) as [Hs|Hs].
    + repeat encoder_step. unfold mret, M_ret.
      rewrite ?length_toBuffer, <- !app_assoc. reflexivity.
    + rewrite write_uint_domain by done. rewrite <- !app_assoc. reflexivity.
  - rewrite write_uint_domain by done. rewrite <- !app_assoc. reflexivity.
Qed.

(** ** The descriptor each constructor returns *)

Lemma descriptor_fresh h tr b pid ks :
  descriptor {| heap := h ++ [b]; trace := tr |}
             {| programId := pid; keys := ks; data := length h |} =
  {| target := pid; accounts := ks; payload := b |}.
Proof.
  unfold descriptor. cbn [programId keys data heap].
  by rewrite list_lookup_middle.
Qed.

Lemma describe_createAccountInstruction fromPubkey newAccountPubkey lamports space owner σ :
  0 ≤ lamports ≤ 2 ^ 64 - 1 → 0 ≤ space ≤ 2 ^ 64 - 1 →
  describe (createAccountInstruction fromPubkey newAccountPubkey lamports space owner) σ =
  Returned
    {| target := SystemProgram_programId;
       accounts := [ {| pubkey := fromPubkey; isSigner := true; isWritable := true |};
                     {| pubkey := newAccountPubkey; isSigner := true; isWritable := true |} ];
       payload := le_bytes 4 0 ++ le_bytes 8 lamports ++ le_bytes 8 space ++ toBuffer owner |}.
Proof.
  intros Hl Hs. unfold describe. rewrite createAccountInstruction_run. cbv zeta.
  rewrite !decide_True by done. by rewrite descriptor_fresh.
Qed.

Lemma describe_createInitializeMintInstruction mintPubkey decimals mintAuthority freezeAuthority σ :
  0 ≤ decimals ≤ 255 →
  describe (createInitializeMintInstruction mintPubkey decimals mintAuthority freezeAuthority) σ =
  Returned
    {| target := TOKEN_PROGRAM_ID;
       accounts := [ {| pubkey := mintPubkey; isSigner := false; isWritable := true |};
                     {| pubkey := SYSVAR_RENT_PUBKEY; isSigner := false; isWritable := false |} ];
       payload := 0 :: decimals :: toBuffer mintAuthority ++ freeze_bytes freezeAuthority |}.
Proof.
  intros Hd. unfold describe. rewrite createInitializeMintInstruction_run. cbv zeta.
  rewrite decide_True by done. by rewrite descriptor_fresh.
Qed.

Lemma describe_createInitializeAccountInstruction tokenAccount mintPubkey owner σ :
  describe (createInitializeAccountInstruction tokenAccount mintPubkey owner) σ =
  Returned
    {| target := TOKEN_PROGRAM_ID;
       accounts := [ {| pubkey := tokenAccount; isSigner := false; isWritable := true |};
                     {| pubkey := mintPubkey; isSigner := false; isWritable := false |};
                     {| pubkey := owner; isSigner := false; isWritable := false |};
                     {| pubkey := SYSVAR_RENT_PUBKEY; isSigner := false; isWritable := false |} ];
       payload := [1] |}.
Proof.
  unfold describe. rewrite createInitializeAccountInstruction_run.
  cbv beta iota zeta. by rewrite descriptor_fresh.
Qed.

Lemma describe_createMintToInstruction mintPubkey dest authority amount σ :
  describe (createMintToInstruction mintPubkey dest authority amount) σ =
  if decide (0 ≤ amount ≤ 2 ^ 64 - 1)
  then Returned
         {| target := TOKEN_PROGRAM_ID;
            accounts := [ {| pubkey := mintPubkey; isSigner := false; isWritable := true |};
                          {| pubkey := dest; isSigner := false; isWritable := true |};
                          {| pubkey := authority; isSigner := true; isWritable := false |} ];
            payload := 7 :: le_bytes 8 amount |}
  else Thrown DomainViolation.
Proof.
  unfold describe. rewrite createMintToInstruction_run. cbv zeta.
  destruct (decide _); [by rewrite descriptor_fresh | done].
Qed.

Lemma describe_createTransferInstruction source dest owner amount σ :
  describe (createTransferInstruction source dest owner amount) σ =
  if decide (0 ≤ amount ≤ 2 ^ 64 - 1)
  then Returned
         {| target := TOKEN_PROGRAM_ID;
            accounts := [ {| pubkey := source; isSigner := false; isWritable := true |};
                          {| pubkey := dest; isSigner := false; isWritable := true |};
                          {| pubkey := owner; isSigner := true; isWritable := false |} ];
            payload := 3 :: le_bytes 8 amount |}
  else Thrown DomainViolation.
Proof.
  unfold describe. rewrite createTransferInstruction_run. cbv zeta.
  destruct (decide _); [by rewrite descriptor_fresh | done].
Qed.

(** Solve [describe (constructor ...) σ = Returned ?d] for in-range
    arguments found among the hypotheses. *)
Ltac described :=
  first
    [ by apply describe_createAccountInstruction
    | by apply describe_createInitializeMintInstruction
    | apply describe_createInitializeAccountInstruction
    | rewrite describe_createMintToInstruction; by rewrite decide_True
    | rewrite describe_createTransferInstruction; by rewrite decide_True ].

(** ** Payload lengths and layouts *)

(** C1. For valid arguments every constructor returns a payload of exactly
    the length its layout prescribes: account allocation 52 bytes, laid
    out as tag (4 bytes at offset 0), lamports (8 at offset 4), space (8 at
    offset 12) and owner identity (32 at offset 20); initialize-account 1
    byte; mint-to and transfer 9 bytes each, the tag at offset 0 and the
    amount at offsets 1 to 8; initialize-mint 35 bytes without a freeze
    authority and 67 with one. *)
Theorem payload_length_matches_schema
    (σ : Store) (a b c owner : PublicKey) (freeze : PublicKey)
    (lamports space decimals amount : Z) :
  0 ≤ lamports ≤ 2 ^ 64 - 1 →
  0 ≤ space ≤ 2 ^ 64 - 1 →
  0 ≤ decimals ≤ 255 →
  0 ≤ amount ≤ 2 ^ 64 - 1 →
  (∃ d, describe (createAccountInstruction a b lamports space owner) σ = Returned d ∧
        length (payload d) = 52%nat ∧
        take 4 (payload d) = le_bytes 4 0 ∧
        take 8 (drop 4 (payload d)) = le_bytes 8 lamports ∧
        take 8 (drop 12 (payload d)) = le_bytes 8 space ∧
        drop 20 (payload d) = toBuffer owner ∧
        length (toBuffer owner) = 32%nat) ∧
  (∃ d, describe (createInitializeAccountInstruction a b c) σ = Returned d ∧
        length (payload d) = 1%nat) ∧
  (∃ d, describe (createMintToInstruction a b c amount) σ = Returned d ∧
        length (payload d) = 9%nat ∧
        take 1 (payload d) = [TOKEN_INSTRUCTION_MINT_TO] ∧
        drop 1 (payload d) = le_bytes 8 amount) ∧
  (∃ d, describe (createTransferInstruction a b c amount) σ = Returned d ∧
        length (payload d) = 9%nat ∧
        take 1 (payload d) = [TOKEN_INSTRUCTION_TRANSFER] ∧
        drop 1 (payload d) = le_bytes 8 amount) ∧
  (∃ d, describe (createInitializeMintInstruction a decimals b None) σ = Returned d ∧
        length (payload d) = 35%nat) ∧
  (∃ d, describe (createInitializeMintInstruction a decimals b (Some freeze)) σ = Returned d ∧
        length (payload d) = 67%nat).
Proof.
  intros Hl Hs Hd Ha. split_and!.
  - eexists. split; [by apply describe_createAccountInstruction|]. cbn [payload].
    split_and!.
    + by rewrite !length_app, !length_le_bytes, length_toBuffer.
    + by rewrite take_app_length' by (by rewrite length_le_bytes).
    + rewrite drop_app_length' by (by rewrite length_le_bytes).
      by rewrite take_app_length' by (by rewrite length_le_bytes).
    + rewrite (app_assoc (le_bytes 4 0)).
      rewrite drop_app_length' by (by rewrite length_app, !length_le_bytes).
      by rewrite take_app_length' by (by rewrite length_le_bytes).
    + rewrite !app_assoc.
      by rewrite drop_app_length' by (by rewrite !length_app, !length_le_bytes).
    + apply length_toBuffer.
  - eexists. split; [apply describe_createInitializeAccountInstruction|]. done.
  - eexists. split.
    + rewrite describe_createMintToInstruction. by rewrite decide_True.
    + cbn [payload]. split_and!; [|done..]. cbn [length]. by rewrite length_le_bytes.
  - eexists. split.
    + rewrite describe_createTransferInstruction. by rewrite decide_True.
    + cbn [payload]. split_and!; [|done..]. cbn [length]. by rewrite length_le_bytes.
  - eexists. split; [by apply describe_createInitializeMintInstruction|].
    cbn [payload freeze_bytes length]. by rewrite length_app, length_toBuffer.
  - eexists. split; [by apply describe_createInitializeMintInstruction|].
    cbn [payload freeze_bytes length].
    rewrite length_app. cbn [length]. by rewrite !length_toBuffer.
Qed.

Lemma payload_length_matches_schema_witness :
  0 ≤ 1461600 ≤ 2 ^ 64 - 1 ∧ 0 ≤ 82 ≤ 2 ^ 64 - 1 ∧ 0 ≤ 9 ≤ 255 ∧
  0 ≤ 10000000000 ≤ 2 ^ 64 - 1 ∧
  ∃ d, describe (createAccountInstruction (mkPublicKey 1) (mkPublicKey 2)
                   1461600 82 TOKEN_PROGRAM_ID) empty_store = Returned d ∧
       length (payload d) = 52%nat.
Proof.
  split_and!; try lia.
  destruct (payload_length_matches_schema empty_store
              (mkPublicKey 1) (mkPublicKey 2) (mkPublicKey 3) TOKEN_PROGRAM_ID
              (mkPublicKey 4) 1461600 82 9 10000000000)
    as [(d & Hd & Hlen & _) _]; try lia.
  exists d. by split.
Defined.

(** ** Account references *)

(** C2. The account references of every descriptor are those of the
    schema, in order and with the schema's signer and writable flags; the
    caller supplies the identities only. *)
Theorem account_roles_fixed_by_encoder
    (σ : Store) (a b c owner : PublicKey) (freezeAuthority : option PublicKey)
    (lamports space decimals amount : Z) :
  0 ≤ lamports ≤ 2 ^ 64 - 1 →
  0 ≤ space ≤ 2 ^ 64 - 1 →
  0 ≤ decimals ≤ 255 →
  0 ≤ amount ≤ 2 ^ 64 - 1 →
  (∃ d, describe (createAccountInstruction a b lamports space owner) σ = Returned d ∧
        accounts d = [ {| pubkey := a; isSigner := true; isWritable := true |};
                       {| pubkey := b; isSigner := true; isWritable := true |} ]) ∧
  (∃ d, describe (createInitializeMintInstruction a decimals b freezeAuthority) σ = Returned d ∧
        accounts d = [ {| pubkey := a; isSigner := false; isWritable := true |};
                       {| pubkey := SYSVAR_RENT_PUBKEY; isSigner := false; isWritable := false |} ]) ∧
  (∃ d, describe (createInitializeAccountInstruction a b c) σ = Returned d ∧
        accounts d = [ {| pubkey := a; isSigner := false; isWritable := true |};
                       {| pubkey := b; isSigner := false; isWritable := false |};
                       {| pubkey := c; isSigner := false; isWritable := false |};
                       {| pubkey := SYSVAR_RENT_PUBKEY; isSigner := false; isWritable := false |} ]) ∧
  (∃ d, describe (createMintToInstruction a b c amount) σ = Returned d ∧
        accounts d = [ {| pubkey := a; isSigner := false; isWritable := true |};
                       {| pubkey := b; isSigner := false; isWritable := true |};
                       {| pubkey := c; isSigner := true; isWritable := false |} ]) ∧
  (∃ d, describe (createTransferInstruction a b c amount) σ = Returned d ∧
        accounts d = [ {| pubkey := a; isSigner := false; isWritable := true |};
                       {| pubkey := b; isSigner := false; isWritable := true |};
                       {| pubkey := c; isSigner := true; isWritable := false |} ]).
Proof.
  intros Hl Hs Hd Ha.
  split_and!; eexists; (split; [described|reflexivity]).
Qed.

Lemma account_roles_fixed_by_encoder_witness :
  0 ≤ 1461600 ≤ 2 ^ 64 - 1 ∧ 0 ≤ 82 ≤ 2 ^ 64 - 1 ∧ 0 ≤ 9 ≤ 255 ∧
  0 ≤ 3000000000 ≤ 2 ^ 64 - 1 ∧
  ∃ d, describe (createTransferInstruction (mkPublicKey 1) (mkPublicKey 2)
                   (mkPublicKey 3) 3000000000) empty_store = Returned d ∧
       accounts d = [ {| pubkey := mkPublicKey 1; isSigner := false; isWritable := true |};
                      {| pubkey := mkPublicKey 2; isSigner := false; isWritable := true |};
                      {| pubkey := mkPublicKey 3; isSigner := true; isWritable := false |} ].
Proof.
  split_and!; try lia.
  destruct (account_roles_fixed_by_encoder empty_store
              (mkPublicKey 1) (mkPublicKey 2) (mkPublicKey 3) TOKEN_PROGRAM_ID
              None 1461600 82 9 3000000000)
    as (_ & _ & _ & _ & d & Hd & Hacc); try lia.
  exists d. by split.
Defined.

(** ** The optional freeze authority *)

Lemma write_bytes_keeps_lengths buf bytes off σ :
  length <$> heap (write_bytes buf bytes off σ).2 = length <$> heap σ.
Proof.
  unfold write_bytes. destruct (heap σ !! buf) as [b|] eqn:Hb; [|done].
  destruct (decide _); [|done]. cbn [snd heap].
  rewrite list_fmap_insert, length_inserts.
  apply list_insert_id. by rewrite list_lookup_fmap, Hb.
Qed.

(** C3. With the mint, the decimals and the mint authority fixed, the
    payload with a freeze authority is exactly 32 bytes longer than the
    payload without; byte 34 is the discriminant, 1 with and 0 without,
    and the 32 bytes of the authority follow it; the first step of the
    constructor allocates the buffer at the final length of the payload,
    every later step is a write inside that buffer, and a write never
    changes the length of a buffer. *)
Theorem freeze_authority_option
    (σ : Store) (mintPubkey mintAuthority freeze : PublicKey) (decimals : Z) :
  0 ≤ decimals ≤ 255 →
  (∃ present absent,
     describe (createInitializeMintInstruction mintPubkey decimals mintAuthority
                 (Some freeze)) σ = Returned present ∧
     describe (createInitializeMintInstruction mintPubkey decimals mintAuthority
                 None) σ = Returned absent ∧
     length (payload present) = (length (payload absent) + 32)%nat ∧
     payload present !! 34%nat = Some 1 ∧
     payload absent !! 34%nat = Some 0 ∧
     take 34 (payload present) = take 34 (payload absent) ∧
     drop 35 (payload present) = toBuffer freeze ∧
     drop 35 (payload absent) = []) ∧
  (∀ freezeAuthority, ∃ ix σ' writes,
     createInitializeMintInstruction mintPubkey decimals mintAuthority
       freezeAuthority σ = (Returned ix, σ') ∧
     length (payload (descriptor σ' ix)) = dataLength freezeAuthority ∧
     trace σ' = trace σ ++ EvAlloc (data ix) (dataLength freezeAuthority) :: writes ∧
     Forall (λ e, ∃ off w, e = EvWrite (data ix) off w ∧
                           (off + w ≤ dataLength freezeAuthority)%nat) writes) ∧
  (∀ buf bytes off σ0,
     length <$> heap (write_bytes buf bytes off σ0).2 = length <$> heap σ0).
Proof.
  intros Hd. split_and!.
  - do 2 eexists.
    split; [by apply describe_createInitializeMintInstruction|].
    split; [by apply describe_createInitializeMintInstruction|].
    unfold freeze_bytes, freezeAuthOption. cbn [payload].
    assert (Hlen : length (0 :: decimals :: toBuffer mintAuthority) = 34%nat).
    { cbn [length]. by rewrite length_toBuffer. }
    rewrite !(app_comm_cons _ _ decimals), !(app_comm_cons _ _ 0).
    split_and!.
    + rewrite !length_app, Hlen. cbn [length]. rewrite length_toBuffer. lia.
    + by rewrite list_lookup_middle.
    + by rewrite list_lookup_middle.
    + by rewrite !take_app_length'.
    + rewrite (cons_middle 1), app_assoc.
      rewrite drop_app_length'; [done|]. rewrite length_app, Hlen. done.
    + rewrite drop_ge; [done|]. rewrite length_app, Hlen. cbn [length]. lia.
  - intros freezeAuthority.
    rewrite createInitializeMintInstruction_run. cbv zeta.
    rewrite decide_True by done. do 3 eexists.
    split; [reflexivity|]. rewrite descriptor_fresh. cbn [payload data trace].
    split_and!.
    + destruct freezeAuthority; unfold freeze_bytes, dataLength; cbn [length];
        rewrite !length_app; cbn [length]; rewrite ?length_toBuffer; lia.
    + reflexivity.
    + destruct freezeAuthority; unfold freeze_events, dataLength; cbn [app];
        repeat constructor; do 2 eexists; (split; [reflexivity|cbn; lia]).
  - apply write_bytes_keeps_lengths.
Qed.

Lemma freeze_authority_option_witness :
  0 ≤ 9 ≤ 255 ∧
  ∃ present absent,
    describe (createInitializeMintInstruction (mkPublicKey 1) 9 (mkPublicKey 2)
                (Some (mkPublicKey 3))) empty_store = Returned present ∧
    describe (createInitializeMintInstruction (mkPublicKey 1) 9 (mkPublicKey 2)
                None) empty_store = Returned absent ∧
    length (payload present) = (length (payload absent) + 32)%nat.
Proof.
  split; [lia|].
  destruct (freeze_authority_option empty_store (mkPublicKey 1) (mkPublicKey 2)
              (mkPublicKey 3) 9) as [(p & q & Hp & Hq & Hlen & _) _]; [lia|].
  exists p, q. by split_and!.
Defined.

(** ** The amount field *)

(** C4. In a mint-to and in a transfer payload the amount is bytes 1 to 8,
    least significant byte first; every amount from 0 to 2^64 - 1 is
    encoded and reads back as itself; a negative amount and an amount of
    2^64 or more make the constructor fail with a domain violation, so no
    wrapped or truncated payload is returned. *)
Theorem amount_is_unsigned_64_bit
    (σ : Store) (a b c : PublicKey) (amount : Z) :
  (0 ≤ amount ≤ 2 ^ 64 - 1 →
   ∃ m t,
     describe (createMintToInstruction a b c amount) σ = Returned m ∧
     describe (createTransferInstruction a b c amount) σ = Returned t ∧
     length (payload m) = 9%nat ∧ length (payload t) = 9%nat ∧
     take 8 (drop 1 (payload m)) = le_bytes 8 amount ∧
     take 8 (drop 1 (payload t)) = le_bytes 8 amount ∧
     (∀ i, (i < 8)%nat →
           payload m !! S i = Some (Z.land (Z.shiftr amount (8 * Z.of_nat i)) 255) ∧
           payload t !! S i = Some (Z.land (Z.shiftr amount (8 * Z.of_nat i)) 255)) ∧
     le_value (take 8 (drop 1 (payload m))) = amount ∧
     le_value (take 8 (drop 1 (payload t))) = amount) ∧
  (amount < 0 ∨ 2 ^ 64 ≤ amount →
   describe (createMintToInstruction a b c amount) σ = Thrown DomainViolation ∧
   describe (createTransferInstruction a b c amount) σ = Thrown DomainViolation).
Proof.
  split.
  - intros Ha. do 2 eexists.
    split; [described|]. split; [described|]. cbn [payload skipn].
    assert (Htake : take 8 (le_bytes 8 amount) = le_bytes 8 amount).
    { apply take_ge. by rewrite length_le_bytes. }
    rewrite !drop_0, Htake, le_value_le_bytes_u64 by done.
    split_and!; try done.
    intros i Hi. cbn [lookup list_lookup].
    by rewrite lookup_le_bytes.
  - intros Ha.
    rewrite describe_createMintToInstruction, describe_createTransferInstruction.
    rewrite !decide_False by lia. done.
Qed.

Lemma amount_is_unsigned_64_bit_witness :
  (0 ≤ 0 ≤ 2 ^ 64 - 1 ∧
   ∃ m, describe (createMintToInstruction (mkPublicKey 1) (mkPublicKey 2)
                    (mkPublicKey 3) 0) empty_store = Returned m ∧
        le_value (take 8 (drop 1 (payload m))) = 0) ∧
  (0 ≤ 2 ^ 64 - 1 ≤ 2 ^ 64 - 1 ∧
   ∃ t, describe (createTransferInstruction (mkPublicKey 1) (mkPublicKey 2)
                    (mkPublicKey 3) (2 ^ 64 - 1)) empty_store = Returned t ∧
        le_value (take 8 (drop 1 (payload t))) = 2 ^ 64 - 1) ∧
  ((-1 < 0 ∨ 2 ^ 64 ≤ -1) ∧
   describe (createMintToInstruction (mkPublicKey 1) (mkPublicKey 2)
               (mkPublicKey 3) (-1)) empty_store = Thrown DomainViolation) ∧
  ((2 ^ 64 < 0 ∨ 2 ^ 64 ≤ 2 ^ 64) ∧
   describe (createTransferInstruction (mkPublicKey 1) (mkPublicKey 2)
               (mkPublicKey 3) (2 ^ 64)) empty_store = Thrown DomainViolation).
Proof.
  split_and!; try lia.
  - destruct (amount_is_unsigned_64_bit empty_store (mkPublicKey 1) (mkPublicKey 2)
                (mkPublicKey 3) 0) as [Hin _].
    destruct Hin as (m & t & Hm & _ & _ & _ & _ & _ & _ & Hv & _); [lia|].
    exists m. by split.
  - destruct (amount_is_unsigned_64_bit empty_store (mkPublicKey 1) (mkPublicKey 2)
                (mkPublicKey 3) (2 ^ 64 - 1)) as [Hin _].
    destruct Hin as (m & t & _ & Ht & _ & _ & _ & _ & _ & _ & Hv); [lia|].
    exists t. by split.
  - apply (amount_is_unsigned_64_bit empty_store (mkPublicKey 1) (mkPublicKey 2)
             (mkPublicKey 3) (-1)). lia.
  - apply (amount_is_unsigned_64_bit empty_store (mkPublicKey 1) (mkPublicKey 2)
             (mkPublicKey 3) (2 ^ 64)). lia.
Defined.

(** ** Target programs *)

(** C6. Account allocation is addressed to the system program, the four
    token instructions to the token program; the two identities differ,
    and a descriptor that a constructor returns, whatever its arguments,
    carries the identity of its own program. *)
Theorem target_program_identities
    (σ : Store) (a b c owner : PublicKey) (freezeAuthority : option PublicKey)
    (lamports space decimals amount : Z) :
  SystemProgram_programId ≠ TOKEN_PROGRAM_ID ∧
  (0 ≤ lamports ≤ 2 ^ 64 - 1 → 0 ≤ space ≤ 2 ^ 64 - 1 →
   0 ≤ decimals ≤ 255 → 0 ≤ amount ≤ 2 ^ 64 - 1 →
   (∃ d, describe (createAccountInstruction a b lamports space owner) σ = Returned d ∧
         target d = SystemProgram_programId) ∧
   (∃ d, describe (createInitializeMintInstruction a decimals b freezeAuthority) σ = Returned d ∧
         target d = TOKEN_PROGRAM_ID) ∧
   (∃ d, describe (createInitializeAccountInstruction a b c) σ = Returned d ∧
         target d = TOKEN_PROGRAM_ID) ∧
   (∃ d, describe (createMintToInstruction a b c amount) σ = Returned d ∧
         target d = TOKEN_PROGRAM_ID) ∧
   (∃ d, describe (createTransferInstruction a b c amount) σ = Returned d ∧
         target d = TOKEN_PROGRAM_ID)) ∧
  (∀ d, describe (createAccountInstruction a b lamports space owner) σ = Returned d →
        target d = SystemProgram_programId) ∧
  (∀ d, describe (createInitializeMintInstruction a decimals b freezeAuthority) σ = Returned d →
        target d = TOKEN_PROGRAM_ID) ∧
  (∀ d, describe (createInitializeAccountInstruction a b c) σ = Returned d →
        target d = TOKEN_PROGRAM_ID) ∧
  (∀ d, describe (createMintToInstruction a b c amount) σ = Returned d →
        target d = TOKEN_PROGRAM_ID) ∧
  (∀ d, describe (createTransferInstruction a b c amount) σ = Returned d →
        target d = TOKEN_PROGRAM_ID).
Proof.
  split_and!.
  - discriminate.
  - intros Hl Hs Hd Ha. split_and!; eexists; (split; [described|reflexivity]).
  - unfold describe. rewrite createAccountInstruction_run. cbv zeta.
    intros d. repeat destruct (decide _); [|done..].
    by intros [= <-].
  - unfold describe. rewrite createInitializeMintInstruction_run. cbv zeta.
    intros d. destruct (decide _); [|done]. by intros [= <-].
  - rewrite describe_createInitializeAccountInstruction. by intros d [= <-].
  - rewrite describe_createMintToInstruction.
    intros d. destruct (decide _); [|done]. by intros [= <-].
  - rewrite describe_createTransferInstruction.
    intros d. destruct (decide _); [|done]. by intros [= <-].
Qed.

Lemma target_program_identities_witness :
  (0 ≤ 1461600 ≤ 2 ^ 64 - 1 ∧ 0 ≤ 82 ≤ 2 ^ 64 - 1 ∧ 0 ≤ 9 ≤ 255 ∧
   0 ≤ 10000000000 ≤ 2 ^ 64 - 1) ∧
  (∃ d, describe (createAccountInstruction (mkPublicKey 1) (mkPublicKey 2)
                    1461600 82 TOKEN_PROGRAM_ID) empty_store = Returned d ∧
        target d = SystemProgram_programId) ∧
  (∃ d, describe (createMintToInstruction (mkPublicKey 1) (mkPublicKey 2)
                    (mkPublicKey 3) 10000000000) empty_store = Returned d ∧
        target d = TOKEN_PROGRAM_ID).
Proof.
  destruct (target_program_identities empty_store (mkPublicKey 1) (mkPublicKey 2)
              (mkPublicKey 3) TOKEN_PROGRAM_ID None 1461600 82 9 10000000000)
    as (_ & Hall & _).
  split; [lia|].
  destruct Hall as (Hacc & _ & _ & Hmint & _); try lia.
  by split.
Defined.

(** ** Decimals *)

(** C8. Every decimals value from 0 to 255 is accepted by the
    initialize-mint constructor and is the byte at offset 1 of the payload;
    nothing narrower than the byte range is checked. *)
Theorem decimals_any_byte
    (σ : Store) (mintPubkey mintAuthority : PublicKey)
    (freezeAuthority : option PublicKey) (decimals : Z) :
  0 ≤ decimals ≤ 255 →
  ∃ d, describe (createInitializeMintInstruction mintPubkey decimals mintAuthority
                   freezeAuthority) σ = Returned d ∧
       payload d !! 1%nat = Some decimals.
Proof.
  intros Hd. eexists. split; [described|]. reflexivity.
Qed.

Lemma decimals_any_byte_witness :
  0 ≤ 255 ≤ 255 ∧
  ∃ d, describe (createInitializeMintInstruction (mkPublicKey 1) 255 (mkPublicKey 2)
                   None) empty_store = Returned d ∧
       payload d !! 1%nat = Some 255.
Proof.
  split; [lia|].
  apply (decimals_any_byte empty_store (mkPublicKey 1) (mkPublicKey 2) None 255). lia.
Defined.

(** ** Opcode tags *)

(** C10. Account allocation starts with the tag 0 on four bytes, least
    significant first; the token instructions start with a one-byte tag,
    0 for initialize-mint, 1 for initialize-account, 7 for mint-to and 3
    for transfer; the mint-to and the transfer payload of one amount agree
    on every byte after the first. *)
Theorem opcode_tags
    (σ : Store) (a b c owner : PublicKey) (freezeAuthority : option PublicKey)
    (lamports space decimals amount : Z) :
  0 ≤ lamports ≤ 2 ^ 64 - 1 →
  0 ≤ space ≤ 2 ^ 64 - 1 →
  0 ≤ decimals ≤ 255 →
  0 ≤ amount ≤ 2 ^ 64 - 1 →
  ∃ alloc initMint initAccount mintTo transfer,
    describe (createAccountInstruction a b lamports space owner) σ = Returned alloc ∧
    describe (createInitializeMintInstruction a decimals b freezeAuthority) σ = Returned initMint ∧
    describe (createInitializeAccountInstruction a b c) σ = Returned initAccount ∧
    describe (createMintToInstruction a b c amount) σ = Returned mintTo ∧
    describe (createTransferInstruction a b c amount) σ = Returned transfer ∧
    take 4 (payload alloc) = [0; 0; 0; 0] ∧
    take 4 (payload alloc) = le_bytes 4 0 ∧
    payload initMint !! 0%nat = Some 0 ∧
    payload initAccount = [1] ∧
    payload mintTo !! 0%nat = Some 7 ∧
    payload transfer !! 0%nat = Some 3 ∧
    drop 1 (payload mintTo) = drop 1 (payload transfer) ∧
    length (payload mintTo) = length (payload transfer).
Proof.
  intros Hl Hs Hd Ha. do 5 eexists.
  do 5 (split; [described|]). cbn [payload].
  split_and!; done.
Qed.

Lemma opcode_tags_witness :
  0 ≤ 1461600 ≤ 2 ^ 64 - 1 ∧ 0 ≤ 82 ≤ 2 ^ 64 - 1 ∧ 0 ≤ 9 ≤ 255 ∧
  0 ≤ 10000000000 ≤ 2 ^ 64 - 1 ∧
  ∃ mintTo transfer,
    describe (createMintToInstruction (mkPublicKey 1) (mkPublicKey 2)
                (mkPublicKey 3) 10000000000) empty_store = Returned mintTo ∧
    describe (createTransferInstruction (mkPublicKey 1) (mkPublicKey 2)
                (mkPublicKey 3) 10000000000) empty_store = Returned transfer ∧
    payload mintTo !! 0%nat = Some 7 ∧
    payload transfer !! 0%nat = Some 3 ∧
    drop 1 (payload mintTo) = drop 1 (payload transfer).
Proof.
  split_and!; try lia.
  destruct (opcode_tags empty_store (mkPublicKey 1) (mkPublicKey 2) (mkPublicKey 3)
              TOKEN_PROGRAM_ID None 1461600 82 9 10000000000)
    as (d1 & d2 & d3 & d4 & d5 & _ & _ & _ & H4 & H5 & _ & _ & _ & _ & Hm & Ht & Hd & _);
    try lia.
  exists d4, d5. by split_and!.
Defined.

(** ** Purity of the constructors *)

(** Every call appends exactly one buffer to the heap, records events on
    that buffer only, and what it returns and writes is fixed by its
    arguments alone. *)
Lemma construct_run (op : Operation) :
  ∃ r b evs,
    (∀ buf, Forall (λ e, ev_buf e = buf) (evs buf)) ∧
    ∀ σ, construct op σ =
         (outcome_at r (length (heap σ)),
          {| heap := heap σ ++ [b];
             trace := trace σ ++ evs (length (heap σ)) |}).
Proof.
  destruct op as [a b l s o | m d a f | a m o | m d a v | s d o v]; cbn [construct].
  - destruct (decide (0 ≤ l ≤ 2 ^ 64 - 1)) as [Hl|Hl];
      [destruct (decide (0 ≤ s ≤ 2 ^ 64 - 1)) as [Hs|Hs]|].
    + eexists (inr (_, _)), _, (λ buf, [EvAlloc buf 52; EvWrite buf 0 4;
                                         EvWrite buf 4 8; EvWrite buf 12 8;
                                         EvWrite buf 20 32]).
      split; [intros buf; by repeat constructor|]. intros σ.
      rewrite createAccountInstruction_run. cbv zeta.
      rewrite !decide_True by done. reflexivity.
    + eexists (inl _), _, (λ buf, [EvAlloc buf 52; EvWrite buf 0 4; EvWrite buf 4 8]).
      split; [intros buf; by repeat constructor|]. intros σ.
      rewrite createAccountInstruction_run. cbv zeta.
      rewrite decide_True, decide_False by done. reflexivity.
    + eexists (inl _), _, (λ buf, [EvAlloc buf 52; EvWrite buf 0 4]).
      split; [intros buf; by repeat constructor|]. intros σ.
      rewrite createAccountInstruction_run. cbv zeta.
      rewrite decide_False by done. reflexivity.
  - destruct (decide (0 ≤ d ≤ 255)) as [Hd|Hd].
    + eexists (inr (_, _)), _,
        (λ buf, [EvAlloc buf (dataLength f); EvWrite buf 0 1; EvWrite buf 1 1;
                 EvWrite buf 2 32; EvWrite buf 34 1] ++ freeze_events buf f).
      split.
      { intros buf. destruct f; by repeat constructor. }
      intros σ. rewrite createInitializeMintInstruction_run. cbv zeta.
      rewrite decide_True by done. reflexivity.
    + eexists (inl _), _, (λ buf, [EvAlloc buf (dataLength f); EvWrite buf 0 1]).
      split; [intros buf; by repeat constructor|]. intros σ.
      rewrite createInitializeMintInstruction_run. cbv zeta.
      rewrite decide_False by done. reflexivity.
  - eexists (inr (_, _)), _, (λ buf, [EvAlloc buf 1; EvWrite buf 0 1]).
    split; [intros buf; by repeat constructor|]. intros σ.
    rewrite createInitializeAccountInstruction_run. reflexivity.
  - destruct (decide (0 ≤ v ≤ 2 ^ 64 - 1)) as [Hv|Hv].
    + eexists (inr (_, _)), _, (λ buf, [EvAlloc buf 9; EvWrite buf 0 1; EvWrite buf 1 8]).
      split; [intros buf; by repeat constructor|]. intros σ.
      rewrite createMintToInstruction_run. cbv zeta.
      rewrite decide_True by done. reflexivity.
    + eexists (inl _), _, (λ buf, [EvAlloc buf 9; EvWrite buf 0 1]).
      split; [intros buf; by repeat constructor|]. intros σ.
      rewrite createMintToInstruction_run. cbv zeta.
      rewrite decide_False by done. reflexivity.
  - destruct (decide (0 ≤ v ≤ 2 ^ 64 - 1)) as [Hv|Hv].
    + eexists (inr (_, _)), _, (λ buf, [EvAlloc buf 9; EvWrite buf 0 1; EvWrite buf 1 8]).
      split; [intros buf; by repeat constructor|]. intros σ.
      rewrite createTransferInstruction_run. cbv zeta.
      rewrite decide_True by done. reflexivity.
    + eexists (inl _), _, (λ buf, [EvAlloc buf 9; EvWrite buf 0 1]).
      split; [intros buf; by repeat constructor|]. intros σ.
      rewrite createTransferInstruction_run. cbv zeta.
      rewrite decide_False by done. reflexivity.
Qed.

Lemma descriptor_older h tr b b' pid ks :
  descriptor {| heap := (h ++ [b]) ++ [b']; trace := tr |}
             {| programId := pid; keys := ks; data := length h |} =
  {| target := pid; accounts := ks; payload := b |}.
Proof.
  unfold descriptor. cbn [programId keys data heap].
  rewrite lookup_app_l by (rewrite length_app; cbn; lia).
  by rewrite list_lookup_middle.
Qed.

(** C9. A constructor is a function of its arguments: run from any two
    stores it returns the same descriptor (or the same exception); it
    leaves every buffer that existed before the call as it was, appends
    one buffer of its own and touches no other; and two calls in a row with
    the same arguments return equal descriptors held in two different
    buffers. *)
Theorem constructors_are_pure (op : Operation) (σ1 σ2 : Store) :
  describe (construct op) σ1 = describe (construct op) σ2 ∧
  (∃ b evs,
     heap (construct op σ1).2 = heap σ1 ++ [b] ∧
     trace (construct op σ1).2 = trace σ1 ++ evs ∧
     Forall (λ e, ev_buf e = length (heap σ1)) evs) ∧
  match (x ← construct op; y ← construct op; mret (x, y)) σ1 with
  | (Returned (x, y), σ') =>
      descriptor σ' x = descriptor σ' y ∧
      describe (construct op) σ1 = Returned (descriptor σ' x) ∧
      data x ≠ data y
  | (Thrown e, _) => describe (construct op) σ1 = Thrown e
  end.
Proof.
  destruct (construct_run op) as (r & b & evs & Hevs & Hrun).
  split_and!.
  - unfold describe. rewrite !Hrun.
    destruct r as [e|[pid ks]]; cbn [outcome_at]; [done|].
    by rewrite !descriptor_fresh.
  - exists b, (evs (length (heap σ1))). rewrite Hrun. cbn [snd heap trace].
    split_and!; [done..|]. apply Hevs.
  - unfold describe, mbind, M_bind. rewrite Hrun.
    destruct r as [e|[pid ks]]; cbn [outcome_at]; [done|].
    rewrite Hrun. cbn [outcome_at heap trace mret M_ret].
    rewrite descriptor_older, descriptor_fresh, descriptor_fresh.
    split_and!; [done..|]. cbn [data]. rewrite length_app. cbn. lia.
Qed.

(** ** Required signers *)

Lemma elem_of_signers_of (ix : TransactionInstruction) (k : PublicKey) :
  k ∈ signers_of ix ↔ ∃ m, m ∈ keys ix ∧ isSigner m = true ∧ pubkey m = k.
Proof.
  unfold signers_of. rewrite elem_of_list_to_set, list_elem_of_fmap. split.
  - intros (m & -> & Hm). apply list_elem_of_filter in Hm as [Hs Hm]. eauto.
  - intros (m & Hm & Hs & <-). exists m. split; [done|].
    by apply list_elem_of_filter.
Qed.

Lemma elem_of_requiredSigners (b : Batch) (k : PublicKey) :
  k ∈ requiredSigners b ↔
  ∃ ix m, ix ∈ instructions b ∧ m ∈ keys ix ∧ isSigner m = true ∧ pubkey m = k.
Proof.
  unfold requiredSigners. rewrite elem_of_union_list. split.
  - intros (X & HX & Hk). apply list_elem_of_fmap in HX as (ix & -> & Hix).
    apply elem_of_signers_of in Hk as (m & ? & ? & ?). eauto 6.
  - intros (ix & m & Hix & Hm & Hs & Hk). exists (signers_of ix). split.
    + apply list_elem_of_fmap. eauto.
    + apply elem_of_signers_of. eauto.
Qed.

Lemma allocation_then_initialize_run
    payer newAccount lamports space owner mintPubkey decimals mintAuthority
    freezeAuthority σ :
  0 ≤ lamports ≤ 2 ^ 64 - 1 → 0 ≤ space ≤ 2 ^ 64 - 1 → 0 ≤ decimals ≤ 255 →
  ∃ buf buf' σ',
    (x ← createAccountInstruction payer newAccount lamports space owner;
     y ← createInitializeMintInstruction mintPubkey decimals mintAuthority
           freezeAuthority;
     mret [x; y]) σ =
    (Returned
       [ {| programId := SystemProgram_programId;
            keys := [ {| pubkey := payer; isSigner := true; isWritable := true |};
                      {| pubkey := newAccount; isSigner := true; isWritable := true |} ];
            data := buf |};
         {| programId := TOKEN_PROGRAM_ID;
            keys := [ {| pubkey := mintPubkey; isSigner := false; isWritable := true |};
                      {| pubkey := SYSVAR_RENT_PUBKEY; isSigner := false;
                         isWritable := false |} ];
            data := buf' |} ], σ').
Proof.
  intros Hl Hs Hd. do 3 eexists. unfold mbind, M_bind.
  rewrite createAccountInstruction_run. cbv zeta.
  rewrite !decide_True by done.
  rewrite createInitializeMintInstruction_run. cbv zeta.
  rewrite decide_True by done. reflexivity.
Qed.

(** C5. The required-signer set of a batch holds exactly the identities
    that some instruction of the batch references with [isSigner = true]
    (a set, so each identity once); for the batch of an account allocation
    followed by an initialize-mint it is the set of the payer and the new
    account. *)
Theorem required_signers_are_the_signer_references :
  (∀ (b : Batch) (k : PublicKey),
     k ∈ requiredSigners b ↔
     ∃ ix m, ix ∈ instructions b ∧ m ∈ keys ix ∧ isSigner m = true ∧ pubkey m = k) ∧
  (∀ (σ : Store) (payer newAccount owner mintPubkey mintAuthority : PublicKey)
     (freezeAuthority : option PublicKey) (lamports space decimals : Z),
     0 ≤ lamports ≤ 2 ^ 64 - 1 → 0 ≤ space ≤ 2 ^ 64 - 1 → 0 ≤ decimals ≤ 255 →
     ∃ alloc init σ' b,
       (x ← createAccountInstruction payer newAccount lamports space owner;
        y ← createInitializeMintInstruction mintPubkey decimals mintAuthority
              freezeAuthority;
        mret [x; y]) σ = (Returned [alloc; init], σ') ∧
       add [alloc; init] new_Transaction = (Returned (), b) ∧
       instructions b = [alloc; init] ∧
       signers_of alloc = {[payer; newAccount]} ∧
       signers_of init = ∅ ∧
       requiredSigners b = {[payer; newAccount]} ∧
       NoDup (elements (requiredSigners b)) ∧
       (payer ≠ newAccount → size (requiredSigners b) = 2%nat)).
Proof.
  split; [apply elem_of_requiredSigners|].
  intros σ payer newAccount owner mintPubkey mintAuthority freezeAuthority
    lamports space decimals Hl Hs Hd.
  destruct (allocation_then_initialize_run payer newAccount lamports space owner
              mintPubkey decimals mintAuthority freezeAuthority σ Hl Hs Hd)
    as (buf & buf' & σ' & Hrun).
  do 4 eexists. split; [exact Hrun|].
  split; [reflexivity|]. split; [reflexivity|].
  assert (Hset : requiredSigners
                   {| instructions := instructions new_Transaction ++
                        [ {| programId := SystemProgram_programId;
                             keys := [ {| pubkey := payer; isSigner := true;
                                          isWritable := true |};
                                       {| pubkey := newAccount; isSigner := true;
                                          isWritable := true |} ];
                             data := buf |};
                          {| programId := TOKEN_PROGRAM_ID;
                             keys := [ {| pubkey := mintPubkey; isSigner := false;
                                          isWritable := true |};
                                       {| pubkey := SYSVAR_RENT_PUBKEY;
                                          isSigner := false; isWritable := false |} ];
                             data := buf' |} ];
                      feePayer := feePayer new_Transaction;
                      recentBlockhash := recentBlockhash new_Transaction;
                      finalized := false |} = {[payer; newAccount]}).
  { clear. unfold requiredSigners, signers_of. cbn. set_solver. }
  split_and!.
  - clear. unfold signers_of. cbn. set_solver.
  - clear. unfold signers_of. cbn. set_solver.
  - exact Hset.
  - apply NoDup_elements.
  - intros Hne. rewrite Hset. rewrite size_union by set_solver.
    by rewrite !size_singleton.
Qed.

Lemma required_signers_are_the_signer_references_witness :
  (0 ≤ 1461600 ≤ 2 ^ 64 - 1 ∧ 0 ≤ 82 ≤ 2 ^ 64 - 1 ∧ 0 ≤ 9 ≤ 255) ∧
  ∃ alloc init σ' b,
    (x ← createAccountInstruction (mkPublicKey 1) (mkPublicKey 2) 1461600 82
           TOKEN_PROGRAM_ID;
     y ← createInitializeMintInstruction (mkPublicKey 2) 9 (mkPublicKey 1) None;
     mret [x; y]) empty_store = (Returned [alloc; init], σ') ∧
    add [alloc; init] new_Transaction = (Returned (), b) ∧
    requiredSigners b = {[mkPublicKey 1; mkPublicKey 2]}.
Proof.
  split; [lia|].
  destruct required_signers_are_the_signer_references as [_ Hbatch].
  destruct (Hbatch empty_store (mkPublicKey 1) (mkPublicKey 2) TOKEN_PROGRAM_ID
              (mkPublicKey 2) (mkPublicKey 1) None 1461600 82 9)
    as (alloc & init & σ' & b & Hrun & Hadd & _ & _ & _ & Hset & _); try lia.
  exists alloc, init, σ', b. by split_and!.
Defined.

(** After a constructor call of a script has been rewritten: take the
    branch of the in-range arguments and project the store. *)
Ltac script_step :=
  cbv beta iota zeta;
  rewrite ?decide_True by (done || lia);
  cbv beta iota zeta; cbn [heap trace].

(** The signers each script passes to [transaction.sign] are the required
    signers of the batch it built. *)
Lemma mint_manual_signers_required payer mint mintRent σ :
  0 ≤ mintRent ≤ 2 ^ 64 - 1 →
  ∃ ixs σ' b,
    mint_manual_instructions payer mint mintRent σ = (Returned ixs, σ') ∧
    add ixs new_Transaction = (Returned (), b) ∧
    requiredSigners b = list_to_set (mint_manual_signers payer mint).
Proof.
  intros Hrent. unfold mint_manual_instructions.
  destruct (allocation_then_initialize_run payer mint mintRent 82 TOKEN_PROGRAM_ID
              mint 9 payer None σ) as (buf & buf' & σ' & Hrun); [lia..|].
  do 3 eexists. split; [exact Hrun|]. split; [reflexivity|].
  clear. unfold requiredSigners, signers_of, mint_manual_signers. cbn. set_solver.
Qed.

Lemma token_manual_signers_required
    payer receiverPubkey mint tokenAccountA tokenAccountB mintRent tokenAccountRent σ :
  0 ≤ mintRent ≤ 2 ^ 64 - 1 → 0 ≤ tokenAccountRent ≤ 2 ^ 64 - 1 →
  ∃ ixs σ' b,
    token_manual_instructions payer receiverPubkey mint tokenAccountA tokenAccountB
      mintRent tokenAccountRent σ = (Returned ixs, σ') ∧
    length ixs = 8%nat ∧
    add ixs new_Transaction = (Returned (), b) ∧
    requiredSigners b =
      list_to_set (token_manual_signers payer mint tokenAccountA tokenAccountB).
Proof.
  intros Hm Ht. do 3 eexists. unfold token_manual_instructions.
  assert (Hmint : 0 ≤ 10 * 10 ^ BigInt 9 ≤ 2 ^ 64 - 1) by (unfold BigInt; lia).
  assert (Hxfer : 0 ≤ 3 * 10 ^ BigInt 9 ≤ 2 ^ 64 - 1) by (unfold BigInt; lia).
  unfold mbind, M_bind. cbv zeta.
  do 3 (rewrite createAccountInstruction_run; script_step).
  rewrite createInitializeMintInstruction_run; script_step.
  do 2 (rewrite createInitializeAccountInstruction_run; script_step).
  rewrite createMintToInstruction_run; script_step.
  rewrite createTransferInstruction_run; script_step.
  split; [reflexivity|]. split; [reflexivity|]. split; [reflexivity|].
  clear. unfold requiredSigners, signers_of, token_manual_signers. cbn. set_solver.
Qed.

(** ** Batch state *)

Lemma finalize_failure_unchanged payer token b e b' :
  finalize payer token b = (Thrown e, b') → e = BatchStateViolation ∧ b' = b.
Proof.
  unfold finalize.
  destruct (instructions b) as [|ix ixs], payer as [p|], token as [t|];
    try (by intros [= <- <-]).
  destruct (finalized b); [destruct (decide _)|]; by intros [= <- <-] || intros [=].
Qed.

Lemma add_failure_unchanged items b e b' :
  add items b = (Thrown e, b') → e = BatchStateViolation ∧ b' = b.
Proof.
  unfold add. destruct (finalized b); by intros [= <- <-] || intros [=].
Qed.

Lemma finalize_finalizes ix ixs p t b :
  instructions b = ix :: ixs → finalized b = false →
  ∃ b', finalize (Some p) (Some t) b = (Returned (), b') ∧
        finalized b' = true ∧ instructions b' = instructions b ∧
        feePayer b' = Some p ∧ recentBlockhash b' = Some t.
Proof.
  intros Hix Hopen. unfold finalize. rewrite Hix, Hopen. eexists.
  split; [reflexivity|]. done.
Qed.

(** C7. Finalizing a batch that has no instruction fails; finalizing
    without a fee payer or without a freshness token fails; appending to a
    finalized batch fails; each of these is a batch-state violation, and
    whenever finalize or append fails the batch is the one it was. *)
Theorem batch_state_violations
    (b : Batch) (payer : option PublicKey) (token : option string)
    (items : list TransactionInstruction) :
  (instructions b = [] →
   finalize payer token b = (Thrown BatchStateViolation, b)) ∧
  (payer = None ∨ token = None →
   finalize payer token b = (Thrown BatchStateViolation, b)) ∧
  (finalized b = true →
   add items b = (Thrown BatchStateViolation, b)) ∧
  (∀ e b', finalize payer token b = (Thrown e, b') →
           e = BatchStateViolation ∧ b' = b) ∧
  (∀ e b', add items b = (Thrown e, b') →
           e = BatchStateViolation ∧ b' = b).
Proof.
  split_and!.
  - intros Hempty. unfold finalize. by rewrite Hempty.
  - intros [-> | ->]; unfold finalize.
    + by destruct (instructions b).
    + by destruct (instructions b), payer.
  - intros Hfin. unfold add. by rewrite Hfin.
  - apply finalize_failure_unchanged.
  - apply add_failure_unchanged.
Qed.

Lemma batch_state_violations_witness :
  (instructions new_Transaction = [] ∧
   finalize (Some (mkPublicKey 3)) (Some "EkSnNWid2cvwEVnVx9aBqawnmiCNiDgp3gUdkDPTKN1N"%string)
     new_Transaction = (Thrown BatchStateViolation, new_Transaction)) ∧
  ((∃ b, add (instructions finalized_example) new_Transaction = (Returned (), b) ∧
         finalize (feePayer finalized_example) (recentBlockhash finalized_example) b =
         (Returned (), finalized_example)) ∧
   finalized finalized_example = true ∧
   add (instructions finalized_example) finalized_example =
   (Thrown BatchStateViolation, finalized_example)) ∧
  ((@None PublicKey = None ∨ recentBlockhash finalized_example = None) ∧
   finalize (@None PublicKey) (recentBlockhash finalized_example) finalized_example =
   (Thrown BatchStateViolation, finalized_example)).
Proof.
  destruct (batch_state_violations new_Transaction (Some (mkPublicKey 3))
              (Some "EkSnNWid2cvwEVnVx9aBqawnmiCNiDgp3gUdkDPTKN1N"%string) [])
    as (Hempty & _).
  destruct (batch_state_violations finalized_example None
              (recentBlockhash finalized_example) (instructions finalized_example))
    as (_ & Hmissing & Hclosed & _).
  split_and!.
  - reflexivity.
  - by apply Hempty.
  - eexists. split; reflexivity.
  - reflexivity.
  - by apply Hclosed.
  - by left.
  - apply Hmissing. by left.
Defined.

(** * Further properties of the constructors and of the scripts *)

(** ** When a constructor returns *)

Lemma describe_construct_cases (op : Operation) (σ : Store) :
  (in_domain op ∧ ∃ d, describe (construct op) σ = Returned d) ∨
  (¬ in_domain op ∧ describe (construct op) σ = Thrown DomainViolation).
Proof.
  destruct op as [a b l s o | m d a f | a m o | m d a v | s d o v];
    cbn [construct in_domain].
  - destruct (decide (0 ≤ l ≤ 2 ^ 64 - 1)) as [Hl|Hl];
      [destruct (decide (0 ≤ s ≤ 2 ^ 64 - 1)) as [Hs|Hs]|].
    + left. split; [done|]. eexists. by apply describe_createAccountInstruction.
    + right. split; [tauto|]. unfold describe.
      rewrite createAccountInstruction_run. cbv zeta.
      by rewrite decide_True, decide_False.
    + right. split; [tauto|]. unfold describe.
      rewrite createAccountInstruction_run. cbv zeta.
      by rewrite decide_False.
  - destruct (decide (0 ≤ d ≤ 255)) as [Hd|Hd].
    + left. split; [done|]. eexists. by apply describe_createInitializeMintInstruction.
    + right. split; [done|]. unfold describe.
      rewrite createInitializeMintInstruction_run. cbv zeta.
      by rewrite decide_False.
  - left. split; [done|]. eexists. apply describe_createInitializeAccountInstruction.
  - rewrite describe_createMintToInstruction.
    destruct (decide (0 ≤ v ≤ 2 ^ 64 - 1)); [left|right]; eauto.
  - rewrite describe_createTransferInstruction.
    destruct (decide (0 ≤ v ≤ 2 ^ 64 - 1)); [left|right]; eauto.
Qed.

(** X1. A constructor returns a descriptor exactly when its integer
    arguments are in the range of their fields: lamports and space in
    0..2^64-1 for account allocation, decimals in 0..255 for
    initialize-mint, the amount in 0..2^64-1 for mint-to and transfer, and
    always for initialize-account.  Outside the range it fails with a
    domain violation; no call ever fails for want of room in the buffer it
    allocated. *)
Theorem constructor_returns_iff_in_domain (op : Operation) (σ : Store) :
  (in_domain op ↔ ∃ d, describe (construct op) σ = Returned d) ∧
  (¬ in_domain op ↔ describe (construct op) σ = Thrown DomainViolation) ∧
  describe (construct op) σ ≠ Thrown SchemaViolation.
Proof.
  destruct (describe_construct_cases op σ) as [[Hin [d Hd]] | [Hout Hthrown]].
  - rewrite Hd. split_and!; [split; eauto | split; [done | discriminate] | discriminate].
  - rewrite Hthrown. split_and!.
    + split; [done|]. by intros [d [=]].
    + done.
    + discriminate.
Qed.

Lemma constructor_returns_iff_in_domain_witness :
  (in_domain (AccountAllocation (mkPublicKey 1) (mkPublicKey 2) 1461600 82
                TOKEN_PROGRAM_ID) ∧
   ∃ d, describe (createAccountInstruction (mkPublicKey 1) (mkPublicKey 2) 1461600 82
                    TOKEN_PROGRAM_ID) empty_store = Returned d) ∧
  (¬ in_domain (AccountAllocation (mkPublicKey 1) (mkPublicKey 2) (-1) 82
                  TOKEN_PROGRAM_ID) ∧
   describe (createAccountInstruction (mkPublicKey 1) (mkPublicKey 2) (-1) 82
               TOKEN_PROGRAM_ID) empty_store = Thrown DomainViolation) ∧
  (¬ in_domain (InitializeMint (mkPublicKey 1) 256 (mkPublicKey 2) None) ∧
   describe (createInitializeMintInstruction (mkPublicKey 1) 256 (mkPublicKey 2) None)
     empty_store = Thrown DomainViolation).
Proof.
  assert (H1 : in_domain (AccountAllocation (mkPublicKey 1) (mkPublicKey 2) 1461600 82
                            TOKEN_PROGRAM_ID)) by (cbn; lia).
  assert (H2 : ¬ in_domain (AccountAllocation (mkPublicKey 1) (mkPublicKey 2) (-1) 82
                              TOKEN_PROGRAM_ID)) by (cbn; lia).
  assert (H3 : ¬ in_domain (InitializeMint (mkPublicKey 1) 256 (mkPublicKey 2) None))
    by (cbn; lia).
  split_and!.
  - exact H1.
  - apply (constructor_returns_iff_in_domain
             (AccountAllocation (mkPublicKey 1) (mkPublicKey 2) 1461600 82
                TOKEN_PROGRAM_ID) empty_store). exact H1.
  - exact H2.
  - apply (proj1 (proj2 (constructor_returns_iff_in_domain
             (AccountAllocation (mkPublicKey 1) (mkPublicKey 2) (-1) 82
                TOKEN_PROGRAM_ID) empty_store))). exact H2.
  - exact H3.
  - apply (proj1 (proj2 (constructor_returns_iff_in_domain
             (InitializeMint (mkPublicKey 1) 256 (mkPublicKey 2) None) empty_store))).
    exact H3.
Defined.

(** ** The running offset *)

Ltac payload_length :=
  cbn [length];
  rewrite ?length_app, ?length_le_bytes, ?length_toBuffer;
  cbn [length];
  rewrite ?length_toBuffer;
  first [reflexivity | lia].

Lemma construct_trace (op : Operation) (σ σ' : Store) (ix : TransactionInstruction) :
  construct op σ = (Returned ix, σ') →
  ∃ b size writes,
    data ix = length (heap σ) ∧
    heap σ' = heap σ ++ [b] ∧ length b = size ∧
    trace σ' = trace σ ++ EvAlloc (data ix) size :: writes ∧
    tiles (data ix) 0 writes size.
Proof.
  destruct op as [a b l s o | m d a f | a m o | m d a v | s d o v];
    cbn [construct].
  - rewrite createAccountInstruction_run. cbv zeta.
    repeat destruct (decide _); intros Heq; [|done..].
    apply pair_equal_spec in Heq as [[= <-] <-]. cbn [data heap trace].
    eexists _, 52%nat, _.
    split_and!; [reflexivity|reflexivity|payload_length|reflexivity|by cbn].
  - rewrite createInitializeMintInstruction_run. cbv zeta.
    destruct (decide _); intros Heq; [|done].
    apply pair_equal_spec in Heq as [[= <-] <-]. cbn [data heap trace].
    eexists _, (dataLength f), _.
    split_and!; [reflexivity|reflexivity| |reflexivity|].
    + destruct f; unfold freeze_bytes, dataLength; payload_length.
    + destruct f; unfold freeze_events, dataLength; cbn [length app tiles];
        by split_and!.
  - rewrite createInitializeAccountInstruction_run. cbv zeta.
    intros Heq. apply pair_equal_spec in Heq as [[= <-] <-]. cbn [data heap trace].
    eexists _, 1%nat, _.
    split_and!; [reflexivity|reflexivity|payload_length|reflexivity|by cbn].
  - rewrite createMintToInstruction_run. cbv zeta.
    destruct (decide _); intros Heq; [|done].
    apply pair_equal_spec in Heq as [[= <-] <-]. cbn [data heap trace].
    eexists _, 9%nat, _.
    split_and!; [reflexivity|reflexivity|payload_length|reflexivity|by cbn].
  - rewrite createTransferInstruction_run. cbv zeta.
    destruct (decide _); intros Heq; [|done].
    apply pair_equal_spec in Heq as [[= <-] <-]. cbn [data heap trace].
    eexists _, 9%nat, _.
    split_and!; [reflexivity|reflexivity|payload_length|reflexivity|by cbn].
Qed.

(** X2. In every call that returns, the writes fill the buffer exactly:
    the first write is at offset 0, every later write starts where the one
    before it ended, and the last one ends at the length the buffer was
    allocated with, which is the length of the returned payload.  No byte
    is left as allocated by oversight and none is written twice. *)
Theorem writes_tile_the_buffer
    (op : Operation) (σ σ' : Store) (ix : TransactionInstruction) :
  construct op σ = (Returned ix, σ') →
  ∃ size writes,
    trace σ' = trace σ ++ EvAlloc (data ix) size :: writes ∧
    tiles (data ix) 0 writes size ∧
    length (payload (descriptor σ' ix)) = size.
Proof.
  intros Hrun.
  destruct (construct_trace op σ σ' ix Hrun)
    as (b & size & writes & Hdata & Hheap & Hlen & Htrace & Htiles).
  exists size, writes. split_and!; [done..|].
  unfold descriptor. cbn [payload]. rewrite Hheap, Hdata.
  by rewrite list_lookup_middle.
Qed.

Lemma writes_tile_the_buffer_witness :
  ∃ ix σ' writes,
    createInitializeMintInstruction (mkPublicKey 1) 9 (mkPublicKey 2)
      (Some (mkPublicKey 3)) empty_store = (Returned ix, σ') ∧
    trace σ' = EvAlloc (data ix) 67 :: writes ∧
    tiles (data ix) 0 writes 67.
Proof.
  pose proof (writes_tile_the_buffer
                (InitializeMint (mkPublicKey 1) 9 (mkPublicKey 2) (Some (mkPublicKey 3)))
                empty_store) as Htile.
  destruct (createInitializeMintInstruction (mkPublicKey 1) 9 (mkPublicKey 2)
              (Some (mkPublicKey 3)) empty_store) as [[ix|e] σ'] eqn:Hrun;
    [|by vm_compute in Hrun].
  destruct (Htile σ' ix) as (size & writes & Htrace & Htiles & Hlen); [exact Hrun|].
  assert (size = 67%nat) as ->.
  { rewrite <- Hlen. vm_compute in Hrun. by injection Hrun as <- <-. }
  exists ix, σ', writes. by split_and!.
Defined.

(** ** The descriptor determines the call *)

Lemma le_bytes_8_inj v1 v2 :
  0 ≤ v1 ≤ 2 ^ 64 - 1 → 0 ≤ v2 ≤ 2 ^ 64 - 1 →
  le_bytes 8 v1 = le_bytes 8 v2 → v1 = v2.
Proof.
  intros H1 H2 Heq.
  rewrite <- (le_value_le_bytes_u64 v1), <- (le_value_le_bytes_u64 v2) by done.
  by rewrite Heq.
Qed.

Lemma toBuffer_inj k1 k2 :
  is_identity k1 → is_identity k2 → toBuffer k1 = toBuffer k2 → k1 = k2.
Proof.
  unfold is_identity, toBuffer. intros H1 H2 Heq.
  apply (inj reverse) in Heq.
  apply (f_equal le_value) in Heq. rewrite !le_value_le_bytes in Heq.
  change (8 * Z.of_nat PUBLIC_KEY_LENGTH) with 256 in Heq.
  rewrite !Z.mod_small in Heq by lia.
  destruct k1, k2. cbn in *. by subst.
Qed.

Lemma freeze_bytes_inj f1 f2 :
  match f1 with Some k => is_identity k | None => True end →
  match f2 with Some k => is_identity k | None => True end →
  freeze_bytes f1 = freeze_bytes f2 → f1 = f2.
Proof.
  unfold freeze_bytes, freezeAuthOption.
  destruct f1 as [k1|], f2 as [k2|]; intros H1 H2 Heq; try discriminate; [|done].
  f_equal. apply toBuffer_inj; [done..|].
  by apply (f_equal (drop 1)) in Heq.
Qed.

Lemma Returned_descriptor_inj t1 a1 p1 t2 a2 p2 :
  Returned {| target := t1; accounts := a1; payload := p1 |} =
  Returned {| target := t2; accounts := a2; payload := p2 |} →
  t1 = t2 ∧ a1 = a2 ∧ p1 = p2.
Proof. by intros [= -> -> ->]. Qed.

Lemma account_meta_inj k1 s1 w1 k2 s2 w2 :
  {| pubkey := k1; isSigner := s1; isWritable := w1 |} =
  {| pubkey := k2; isSigner := s2; isWritable := w2 |} → k1 = k2.
Proof. by intros [= -> _ _]. Qed.

Lemma cons_eq_inv {A} (x y : A) (l k : list A) :
  x :: l = y :: k → x = y ∧ l = k.
Proof. by intros [= -> ->]. Qed.

(** Bring [describe (constructor ...) σ = Returned d] to the descriptor
    the constructor returns for in-range arguments. *)
Ltac expose H :=
  first
    [ rewrite describe_createAccountInstruction in H by tauto
    | rewrite describe_createInitializeMintInstruction in H by tauto
    | rewrite describe_createInitializeAccountInstruction in H
    | rewrite describe_createMintToInstruction, decide_True in H by tauto
    | rewrite describe_createTransferInstruction, decide_True in H by tauto ].

(** X3. The descriptor tells the call: when two constructor calls with
    in-range arguments, and identities that fit 32 bytes in the payload,
    return the same descriptor (target, account references and payload),
    they are calls of the same constructor with the same arguments.
    Nothing of the arguments is lost or merged by the encoding. *)
Theorem descriptor_determines_operation
    (op1 op2 : Operation) (σ1 σ2 : Store) (d : InstructionDescriptor) :
  in_domain op1 → in_domain op2 →
  payload_identities op1 → payload_identities op2 →
  describe (construct op1) σ1 = Returned d →
  describe (construct op2) σ2 = Returned d →
  op1 = op2.
Proof.
  intros D1 D2 I1 I2 H1 H2.
  destruct op1 as [a1 b1 l1 s1 o1 | m1 d1 a1 f1 | a1 m1 o1 | m1 d1 a1 v1 | s1 d1 o1 v1],
           op2 as [a2 b2 l2 s2 o2 | m2 d2 a2 f2 | a2 m2 o2 | m2 d2 a2 v2 | s2 d2 o2 v2];
    cbn [construct in_domain payload_identities] in *;
    expose H1; expose H2; rewrite <- H2 in H1; clear H2 d;
    apply Returned_descriptor_inj in H1 as (Ht & Ha & Hp);
    try discriminate Ht; try discriminate Ha; try discriminate Hp.
  - apply cons_eq_inv in Ha as [Ha1 Ha]. apply cons_eq_inv in Ha as [Ha2 _].
    apply account_meta_inj in Ha1 as ->. apply account_meta_inj in Ha2 as ->.
    apply app_inj_1 in Hp as [_ Hp]; [|by rewrite !length_le_bytes].
    apply app_inj_1 in Hp as [Hl Hp]; [|by rewrite !length_le_bytes].
    apply app_inj_1 in Hp as [Hs Ho]; [|by rewrite !length_le_bytes].
    apply le_bytes_8_inj in Hl as ->; [|tauto..].
    apply le_bytes_8_inj in Hs as ->; [|tauto..].
    apply toBuffer_inj in Ho as ->; done.
  - apply cons_eq_inv in Ha as [Ha1 _]. apply account_meta_inj in Ha1 as ->.
    apply cons_eq_inv in Hp as [_ Hp]. apply cons_eq_inv in Hp as [-> Hp].
    apply app_inj_1 in Hp as [Hauth Hf]; [|by rewrite !length_toBuffer].
    apply toBuffer_inj in Hauth as ->; [|tauto..].
    apply freeze_bytes_inj in Hf as ->; [done|tauto..].
  - apply cons_eq_inv in Ha as [Ha1 Ha]. apply cons_eq_inv in Ha as [Ha2 Ha].
    apply cons_eq_inv in Ha as [Ha3 _].
    apply account_meta_inj in Ha1 as ->. apply account_meta_inj in Ha2 as ->.
    by apply account_meta_inj in Ha3 as ->.
  - apply cons_eq_inv in Ha as [Ha1 Ha]. apply cons_eq_inv in Ha as [Ha2 Ha].
    apply cons_eq_inv in Ha as [Ha3 _].
    apply account_meta_inj in Ha1 as ->. apply account_meta_inj in Ha2 as ->.
    apply account_meta_inj in Ha3 as ->.
    apply cons_eq_inv in Hp as [_ Hp]. by apply le_bytes_8_inj in Hp as ->.
  - apply cons_eq_inv in Ha as [Ha1 Ha]. apply cons_eq_inv in Ha as [Ha2 Ha].
    apply cons_eq_inv in Ha as [Ha3 _].
    apply account_meta_inj in Ha1 as ->. apply account_meta_inj in Ha2 as ->.
    apply account_meta_inj in Ha3 as ->.
    apply cons_eq_inv in Hp as [_ Hp]. by apply le_bytes_8_inj in Hp as ->.
Qed.

Lemma descriptor_determines_operation_witness :
  in_domain (Transfer (mkPublicKey 1) (mkPublicKey 2) (mkPublicKey 3) 3000000000) ∧
  payload_identities (Transfer (mkPublicKey 1) (mkPublicKey 2) (mkPublicKey 3) 3000000000) ∧
  ∃ d,
    describe (createTransferInstruction (mkPublicKey 1) (mkPublicKey 2) (mkPublicKey 3)
                3000000000) empty_store = Returned d ∧
    Transfer (mkPublicKey 1) (mkPublicKey 2) (mkPublicKey 3) 3000000000 =
    Transfer (mkPublicKey 1) (mkPublicKey 2) (mkPublicKey 3) 3000000000.
Proof.
  assert (Hin : in_domain (Transfer (mkPublicKey 1) (mkPublicKey 2) (mkPublicKey 3)
                             3000000000)) by (cbn; lia).
  assert (Hd : ∃ d, describe (createTransferInstruction (mkPublicKey 1) (mkPublicKey 2)
                                (mkPublicKey 3) 3000000000) empty_store = Returned d).
  { eexists. rewrite describe_createTransferInstruction. by rewrite decide_True by lia. }
  destruct Hd as [d Hd].
  split; [exact Hin|]. split; [exact I|]. exists d. split; [exact Hd|].
  exact (descriptor_determines_operation _ _ empty_store empty_store d
           Hin Hin I I Hd Hd).
Defined.

(** ** Calls made one after the other *)

Lemma describe_construct_any_store (op : Operation) (σ1 σ2 : Store) :
  describe (construct op) σ1 = describe (construct op) σ2.
Proof.
  destruct (construct_run op) as (r & b & evs & _ & Hrun).
  unfold describe. rewrite !Hrun.
  destruct r as [e|[pid ks]]; cbn [outcome_at]; [done|].
  by rewrite !descriptor_fresh.
Qed.

(** Every later call leaves the buffers of the earlier ones as they were:
    read in the final store, each instruction still has the descriptor
    its constructor returned, and the buffers are consecutive new objects. *)
Lemma construct_all_spec (ops : list Operation) :
  ∀ σ ixs σ',
    construct_all ops σ = (Returned ixs, σ') →
    Forall2 (λ op ix, describe (construct op) σ = Returned (descriptor σ' ix)) ops ixs ∧
    data <$> ixs = seq (length (heap σ)) (length ops) ∧
    heap σ `prefix_of` heap σ'.
Proof.
  induction ops as [|op ops IH]; intros σ ixs σ'.
  - cbn [construct_all]. unfold mret, M_ret. intros Heq.
    apply pair_equal_spec in Heq as [[= <-] <-]. split_and!; [constructor|done..].
  - cbn [construct_all]. unfold mbind, M_bind.
    destruct (construct_run op) as (r & b & evs & _ & Hrun). rewrite Hrun.
    destruct r as [e|[pid ks]]; cbn [outcome_at]; [done|].
    destruct (construct_all ops _) as [[ixs'|e] σ2] eqn:Hrest; [|done].
    unfold mret, M_ret. intros Heq. apply pair_equal_spec in Heq as [[= <-] <-].
    destruct (IH _ _ _ Hrest) as (Hall & Hdata & [k Hk]).
    cbn [heap] in Hdata, Hk.
    split_and!.
    + constructor.
      * unfold describe. rewrite Hrun. cbn [outcome_at]. rewrite descriptor_fresh.
        f_equal. unfold descriptor. cbn [programId keys data]. rewrite Hk.
        rewrite lookup_app_l by (rewrite length_app; cbn; lia).
        by rewrite list_lookup_middle.
      * eapply Forall2_impl; [exact Hall|]. intros op' ix' Hd. cbn beta in Hd.
        by rewrite (describe_construct_any_store op' σ
                      {| heap := heap σ ++ [b];
                         trace := trace σ ++ evs (length (heap σ)) |}).
    + cbn [fmap list_fmap data length seq]. f_equal.
      rewrite Hdata. f_equal. rewrite length_app. cbn. lia.
    + exists ([b] ++ k). by rewrite Hk, <- app_assoc.
Qed.

Lemma mint_manual_as_calls payer mint mintRent σ :
  mint_manual_instructions payer mint mintRent σ =
  construct_all
    [ AccountAllocation payer mint mintRent 82 TOKEN_PROGRAM_ID;
      InitializeMint mint 9 payer None ] σ.
Proof.
  unfold mint_manual_instructions. cbn [construct_all construct].
  unfold mbind, M_bind, mret, M_ret. cbv zeta.
  destruct (createAccountInstruction _ _ _ _ _ _) as [[?|?] ?]; [|reflexivity].
  destruct (createInitializeMintInstruction _ _ _ _ _) as [[?|?] ?]; reflexivity.
Qed.

Lemma token_manual_as_calls
    payer receiverPubkey mint tokenAccountA tokenAccountB mintRent tokenAccountRent σ :
  token_manual_instructions payer receiverPubkey mint tokenAccountA tokenAccountB
    mintRent tokenAccountRent σ =
  construct_all
    [ AccountAllocation payer mint mintRent 82 TOKEN_PROGRAM_ID;
      AccountAllocation payer tokenAccountA tokenAccountRent 165 TOKEN_PROGRAM_ID;
      AccountAllocation payer tokenAccountB tokenAccountRent 165 TOKEN_PROGRAM_ID;
      InitializeMint mint 9 payer None;
      InitializeAccount tokenAccountA mint payer;
      InitializeAccount tokenAccountB mint receiverPubkey;
      MintTo mint tokenAccountA payer (10 * 10 ^ BigInt 9);
      Transfer tokenAccountA tokenAccountB payer (3 * 10 ^ BigInt 9) ] σ.
Proof.
  unfold token_manual_instructions. cbn [construct_all construct].
  unfold mbind, M_bind, mret, M_ret. cbv zeta.
  do 3 (destruct (createAccountInstruction _ _ _ _ _ _) as [[?|?] ?]; [|reflexivity]).
  destruct (createInitializeMintInstruction _ _ _ _ _) as [[?|?] ?]; [|reflexivity].
  do 2 (destruct (createInitializeAccountInstruction _ _ _ _) as [[?|?] ?]; [|reflexivity]).
  destruct (createMintToInstruction _ _ _ _ _) as [[?|?] ?]; [|reflexivity].
  destruct (createTransferInstruction _ _ _ _ _) as [[?|?] ?]; reflexivity.
Qed.

(** ** The batches of the scripts *)

Lemma mint_manual_run payer mint mintRent σ :
  0 ≤ mintRent ≤ 2 ^ 64 - 1 →
  ∃ n0 n1 σ',
    mint_manual_instructions payer mint mintRent σ =
    (Returned
       [ {| programId := SystemProgram_programId;
            keys := [ {| pubkey := payer; isSigner := true; isWritable := true |};
                      {| pubkey := mint; isSigner := true; isWritable := true |} ];
            data := n0 |};
         {| programId := TOKEN_PROGRAM_ID;
            keys := [ {| pubkey := mint; isSigner := false; isWritable := true |};
                      {| pubkey := SYSVAR_RENT_PUBKEY; isSigner := false;
                         isWritable := false |} ];
            data := n1 |} ], σ').
Proof.
  intros Hrent. unfold mint_manual_instructions.
  apply allocation_then_initialize_run; lia.
Qed.

Lemma token_manual_run
    payer receiverPubkey mint tokenAccountA tokenAccountB mintRent tokenAccountRent σ :
  0 ≤ mintRent ≤ 2 ^ 64 - 1 → 0 ≤ tokenAccountRent ≤ 2 ^ 64 - 1 →
  ∃ n0 n1 n2 n3 n4 n5 n6 n7 σ',
    token_manual_instructions payer receiverPubkey mint tokenAccountA tokenAccountB
      mintRent tokenAccountRent σ =
    (Returned
       [ {| programId := SystemProgram_programId;
            keys := [ {| pubkey := payer; isSigner := true; isWritable := true |};
                      {| pubkey := mint; isSigner := true; isWritable := true |} ];
            data := n0 |};
         {| programId := SystemProgram_programId;
            keys := [ {| pubkey := payer; isSigner := true; isWritable := true |};
                      {| pubkey := tokenAccountA; isSigner := true; isWritable := true |} ];
            data := n1 |};
         {| programId := SystemProgram_programId;
            keys := [ {| pubkey := payer; isSigner := true; isWritable := true |};
                      {| pubkey := tokenAccountB; isSigner := true; isWritable := true |} ];
            data := n2 |};
         {| programId := TOKEN_PROGRAM_ID;
            keys := [ {| pubkey := mint; isSigner := false; isWritable := true |};
                      {| pubkey := SYSVAR_RENT_PUBKEY; isSigner := false;
                         isWritable := false |} ];
            data := n3 |};
         {| programId := TOKEN_PROGRAM_ID;
            keys := [ {| pubkey := tokenAccountA; isSigner := false; isWritable := true |};
                      {| pubkey := mint; isSigner := false; isWritable := false |};
                      {| pubkey := payer; isSigner := false; isWritable := false |};
                      {| pubkey := SYSVAR_RENT_PUBKEY; isSigner := false;
                         isWritable := false |} ];
            data := n4 |};
         {| programId := TOKEN_PROGRAM_ID;
            keys := [ {| pubkey := tokenAccountB; isSigner := false; isWritable := true |};
                      {| pubkey := mint; isSigner := false; isWritable := false |};
                      {| pubkey := receiverPubkey; isSigner := false; isWritable := false |};
                      {| pubkey := SYSVAR_RENT_PUBKEY; isSigner := false;
                         isWritable := false |} ];
            data := n5 |};
         {| programId := TOKEN_PROGRAM_ID;
            keys := [ {| pubkey := mint; isSigner := false; isWritable := true |};
                      {| pubkey := tokenAccountA; isSigner := false; isWritable := true |};
                      {| pubkey := payer; isSigner := true; isWritable := false |} ];
            data := n6 |};
         {| programId := TOKEN_PROGRAM_ID;
            keys := [ {| pubkey := tokenAccountA; isSigner := false; isWritable := true |};
                      {| pubkey := tokenAccountB; isSigner := false; isWritable := true |};
                      {| pubkey := payer; isSigner := true; isWritable := false |} ];
            data := n7 |} ], σ').
Proof.
  intros Hm Ht. do 9 eexists. unfold token_manual_instructions.
  assert (Hmint : 0 ≤ 10 * 10 ^ BigInt 9 ≤ 2 ^ 64 - 1) by (unfold BigInt; lia).
  assert (Hxfer : 0 ≤ 3 * 10 ^ BigInt 9 ≤ 2 ^ 64 - 1) by (unfold BigInt; lia).
  unfold mbind, M_bind. cbv zeta.
  do 3 (rewrite createAccountInstruction_run; script_step).
  rewrite createInitializeMintInstruction_run; script_step.
  do 2 (rewrite createInitializeAccountInstruction_run; script_step).
  rewrite createMintToInstruction_run; script_step.
  rewrite createTransferInstruction_run; script_step.
  reflexivity.
Qed.

Lemma scripts_fail_on_rent_out_of_range
    payer receiverPubkey mint tokenAccountA tokenAccountB mintRent tokenAccountRent σ :
  (¬ 0 ≤ mintRent ≤ 2 ^ 64 - 1 →
   ∃ σ', mint_manual_instructions payer mint mintRent σ = (Thrown DomainViolation, σ')) ∧
  (¬ (0 ≤ mintRent ≤ 2 ^ 64 - 1 ∧ 0 ≤ tokenAccountRent ≤ 2 ^ 64 - 1) →
   ∃ σ', token_manual_instructions payer receiverPubkey mint tokenAccountA tokenAccountB
           mintRent tokenAccountRent σ = (Thrown DomainViolation, σ')).
Proof.
  split.
  - intros Hout. eexists. unfold mint_manual_instructions, mbind, M_bind. cbv zeta.
    rewrite createAccountInstruction_run. cbv zeta.
    rewrite decide_False by done. reflexivity.
  - intros Hout. unfold token_manual_instructions, mbind, M_bind. cbv zeta.
    rewrite createAccountInstruction_run. cbv zeta.
    destruct (decide (0 ≤ mintRent ≤ 2 ^ 64 - 1)) as [Hm|Hm]; [|by eexists].
    rewrite decide_True by lia. cbv beta iota zeta. cbn [heap trace].
    rewrite createAccountInstruction_run. cbv zeta.
    rewrite decide_False by tauto. by eexists.
Qed.

Lemma Returned_inj {A} (a b : A) : Returned a = Returned b → a = b.
Proof. by intros [= ->]. Qed.

Lemma Forall2_calls σ σ' (ops : list Operation) (ixs : list TransactionInstruction) :
  Forall2 (λ op ix, describe (construct op) σ = Returned (descriptor σ' ix)) ops ixs →
  Forall2 (λ call ix, describe call σ = Returned (descriptor σ' ix))
    (construct <$> ops) ixs.
Proof. intros Hall. by apply Forall2_fmap_l. Qed.

(** Take the first pair off a [Forall2] over the calls of a script and
    bring it to the descriptor of that call. *)
Ltac next_call Hall H :=
  apply Forall2_cons_1 in Hall as [H Hall];
  cbn [construct] in H;
  first
    [ rewrite describe_createAccountInstruction in H by (done || lia)
    | rewrite describe_createInitializeMintInstruction in H by lia
    | rewrite describe_createInitializeAccountInstruction in H
    | rewrite describe_createMintToInstruction, decide_True in H by (done || lia)
    | rewrite describe_createTransferInstruction, decide_True in H by (done || lia) ];
  apply Returned_inj in H.

(** X4. spl-mint-manual.ts: when the rent is in 0..2^64-1 the script
    builds two instructions; read after both constructors have run, each
    still has the descriptor its own constructor call returns, the two
    payloads are 52 and 35 bytes long and sit in two different buffers.
    When the rent is outside that range the script fails with a domain
    violation before any instruction exists. *)
Theorem mint_manual_batch (payer mint : PublicKey) (mintRent : Z) (σ : Store) :
  (0 ≤ mintRent ≤ 2 ^ 64 - 1 →
   ∃ ixs σ',
     mint_manual_instructions payer mint mintRent σ = (Returned ixs, σ') ∧
     Forall2 (λ call ix, describe call σ = Returned (descriptor σ' ix))
       [ createAccountInstruction payer mint mintRent 82 TOKEN_PROGRAM_ID;
         createInitializeMintInstruction mint 9 payer None ] ixs ∧
     NoDup (data <$> ixs) ∧
     (λ ix, length (payload (descriptor σ' ix))) <$> ixs = [52; 35]%nat) ∧
  (¬ 0 ≤ mintRent ≤ 2 ^ 64 - 1 →
   ∃ σ', mint_manual_instructions payer mint mintRent σ = (Thrown DomainViolation, σ')).
Proof.
  split.
  - intros Hrent.
    destruct (mint_manual_run payer mint mintRent σ Hrent) as (n0 & n1 & σ' & Hrun).
    eexists _, σ'. split; [exact Hrun|].
    rewrite mint_manual_as_calls in Hrun.
    apply construct_all_spec in Hrun as (Hall & Hdata & _).
    split_and!.
    + exact (Forall2_calls _ _ _ _ Hall).
    + rewrite Hdata. apply NoDup_seq.
    + next_call Hall H0. next_call Hall H1.
      cbn [fmap list_fmap]. rewrite <- H0, <- H1. reflexivity.
  - apply (scripts_fail_on_rent_out_of_range payer payer mint mint mint mintRent 0 σ).
Qed.

Lemma mint_manual_batch_witness :
  (0 ≤ 1461600 ≤ 2 ^ 64 - 1 ∧
   ∃ ixs σ',
     mint_manual_instructions (mkPublicKey 1) (mkPublicKey 2) 1461600 empty_store =
     (Returned ixs, σ') ∧
     (λ ix, length (payload (descriptor σ' ix))) <$> ixs = [52; 35]%nat) ∧
  (¬ 0 ≤ 2 ^ 64 ≤ 2 ^ 64 - 1 ∧
   ∃ σ', mint_manual_instructions (mkPublicKey 1) (mkPublicKey 2) (2 ^ 64) empty_store =
         (Thrown DomainViolation, σ')).
Proof.
  split.
  - split; [lia|].
    destruct (mint_manual_batch (mkPublicKey 1) (mkPublicKey 2) 1461600 empty_store)
      as [Hin _].
    destruct Hin as (ixs & σ' & Hrun & _ & _ & Hlen); [lia|].
    exists ixs, σ'. by split.
  - split; [lia|].
    apply (mint_manual_batch (mkPublicKey 1) (mkPublicKey 2) (2 ^ 64) empty_store). lia.
Defined.

(** X5. spl-token-manual.ts: when both rents are in 0..2^64-1 the script
    builds eight instructions; read after all eight constructors have run,
    each still has the descriptor its own constructor call returns (a
    later call does not touch the buffer of an earlier one), the payloads
    are 52, 52, 52, 35, 1, 1, 9 and 9 bytes long and sit in eight different
    buffers.  When a rent is outside that range the script fails with a
    domain violation before any instruction exists. *)
Theorem token_manual_batch
    (payer receiverPubkey mint tokenAccountA tokenAccountB : PublicKey)
    (mintRent tokenAccountRent : Z) (σ : Store) :
  (0 ≤ mintRent ≤ 2 ^ 64 - 1 → 0 ≤ tokenAccountRent ≤ 2 ^ 64 - 1 →
   ∃ ixs σ',
     token_manual_instructions payer receiverPubkey mint tokenAccountA tokenAccountB
       mintRent tokenAccountRent σ = (Returned ixs, σ') ∧
     Forall2 (λ call ix, describe call σ = Returned (descriptor σ' ix))
       [ createAccountInstruction payer mint mintRent 82 TOKEN_PROGRAM_ID;
         createAccountInstruction payer tokenAccountA tokenAccountRent 165 TOKEN_PROGRAM_ID;
         createAccountInstruction payer tokenAccountB tokenAccountRent 165 TOKEN_PROGRAM_ID;
         createInitializeMintInstruction mint 9 payer None;
         createInitializeAccountInstruction tokenAccountA mint payer;
         createInitializeAccountInstruction tokenAccountB mint receiverPubkey;
         createMintToInstruction mint tokenAccountA payer (10 * 10 ^ 9);
         createTransferInstruction tokenAccountA tokenAccountB payer (3 * 10 ^ 9) ] ixs ∧
     NoDup (data <$> ixs) ∧
     (λ ix, length (payload (descriptor σ' ix))) <$> ixs =
       [52; 52; 52; 35; 1; 1; 9; 9]%nat) ∧
  (¬ (0 ≤ mintRent ≤ 2 ^ 64 - 1 ∧ 0 ≤ tokenAccountRent ≤ 2 ^ 64 - 1) →
   ∃ σ', token_manual_instructions payer receiverPubkey mint tokenAccountA tokenAccountB
           mintRent tokenAccountRent σ = (Thrown DomainViolation, σ')).
Proof.
  split.
  - intros Hm Ht.
    destruct (token_manual_run payer receiverPubkey mint tokenAccountA tokenAccountB
                mintRent tokenAccountRent σ Hm Ht)
      as (n0 & n1 & n2 & n3 & n4 & n5 & n6 & n7 & σ' & Hrun).
    eexists _, σ'. split; [exact Hrun|].
    rewrite token_manual_as_calls in Hrun.
    apply construct_all_spec in Hrun as (Hall & Hdata & _).
    split_and!.
    + exact (Forall2_calls _ _ _ _ Hall).
    + rewrite Hdata. apply NoDup_seq.
    + unfold BigInt in Hall.
      next_call Hall H0. next_call Hall H1. next_call Hall H2. next_call Hall H3.
      next_call Hall H4. next_call Hall H5. next_call Hall H6. next_call Hall H7.
      cbn [fmap list_fmap].
      rewrite <- H0, <- H1, <- H2, <- H3, <- H4, <- H5, <- H6, <- H7. reflexivity.
  - apply scripts_fail_on_rent_out_of_range.
Qed.

Lemma token_manual_batch_witness :
  (0 ≤ 1461600 ≤ 2 ^ 64 - 1 ∧ 0 ≤ 2039280 ≤ 2 ^ 64 - 1 ∧
   ∃ ixs σ',
     token_manual_instructions (mkPublicKey 1) (mkPublicKey 5) (mkPublicKey 2)
       (mkPublicKey 3) (mkPublicKey 4) 1461600 2039280 empty_store = (Returned ixs, σ') ∧
     (λ ix, length (payload (descriptor σ' ix))) <$> ixs =
       [52; 52; 52; 35; 1; 1; 9; 9]%nat) ∧
  (¬ (0 ≤ 1461600 ≤ 2 ^ 64 - 1 ∧ 0 ≤ -1 ≤ 2 ^ 64 - 1) ∧
   ∃ σ', token_manual_instructions (mkPublicKey 1) (mkPublicKey 5) (mkPublicKey 2)
           (mkPublicKey 3) (mkPublicKey 4) 1461600 (-1) empty_store =
         (Thrown DomainViolation, σ')).
Proof.
  split.
  - split; [lia|]. split; [lia|].
    destruct (token_manual_batch (mkPublicKey 1) (mkPublicKey 5) (mkPublicKey 2)
                (mkPublicKey 3) (mkPublicKey 4) 1461600 2039280 empty_store)
      as [Hin _].
    destruct Hin as (ixs & σ' & Hrun & _ & _ & Hlen); [lia..|].
    exists ixs, σ'. by split.
  - split; [lia|].
    apply (token_manual_batch (mkPublicKey 1) (mkPublicKey 5) (mkPublicKey 2)
             (mkPublicKey 3) (mkPublicKey 4) 1461600 (-1) empty_store). lia.
Defined.

(** ** Signers of the scripts *)

(** X6. spl-mint-manual.ts: the identities that the instructions of the
    batch reference with [isSigner: true] are exactly the two key pairs
    passed to [transaction.sign]: the payer and the mint.  No required
    signature is left out and no key pair signs for nothing. *)
Theorem mint_manual_signs_what_is_flagged
    (payer mint : PublicKey) (mintRent : Z) (σ : Store) :
  0 ≤ mintRent ≤ 2 ^ 64 - 1 →
  ∃ ixs σ',
    mint_manual_instructions payer mint mintRent σ = (Returned ixs, σ') ∧
    ∀ k, k ∈ flagged_signers ixs ↔ k ∈ mint_manual_signers payer mint.
Proof.
  intros Hrent.
  destruct (mint_manual_run payer mint mintRent σ Hrent) as (n0 & n1 & σ' & Hrun).
  eexists _, σ'. split; [exact Hrun|].
  intros k. unfold mint_manual_signers. cbn. clear. set_solver.
Qed.

Lemma mint_manual_signs_what_is_flagged_witness :
  0 ≤ 1461600 ≤ 2 ^ 64 - 1 ∧
  ∃ ixs σ',
    mint_manual_instructions (mkPublicKey 1) (mkPublicKey 2) 1461600 empty_store =
    (Returned ixs, σ') ∧
    ∀ k, k ∈ flagged_signers ixs ↔ k ∈ [mkPublicKey 1; mkPublicKey 2].
Proof.
  split; [lia|].
  apply (mint_manual_signs_what_is_flagged (mkPublicKey 1) (mkPublicKey 2) 1461600
           empty_store). lia.
Defined.



(** ** Order of the instructions *)

(** Find, among the first three instructions, the one that creates the
    account of the goal. *)
Ltac created_earlier :=
  first
    [ exists 0%nat; split; [lia|]; eexists; split_and!; reflexivity
    | exists 1%nat; split; [lia|]; eexists; split_and!; reflexivity
    | exists 2%nat; split; [lia|]; eexists; split_and!; reflexivity ].

(** X8. In the batches of spl-mint-manual.ts and spl-token-manual.ts every
    account that an instruction of the token program may write (an account
    it references with [isWritable: true]) is created by an account
    allocation that stands earlier in the same batch.  No token
    instruction runs on an account the batch has not yet allocated. *)
Theorem accounts_are_created_before_use
    (payer receiverPubkey mint tokenAccountA tokenAccountB : PublicKey)
    (mintRent tokenAccountRent : Z) (σ : Store) :
  0 ≤ mintRent ≤ 2 ^ 64 - 1 → 0 ≤ tokenAccountRent ≤ 2 ^ 64 - 1 →
  (∃ ixs σ',
     mint_manual_instructions payer mint mintRent σ = (Returned ixs, σ') ∧
     ∀ i ix m,
       ixs !! i = Some ix → programId ix = TOKEN_PROGRAM_ID →
       m ∈ keys ix → isWritable m = true →
       ∃ j, (j < i)%nat ∧ creates_account ixs j (pubkey m)) ∧
  (∃ ixs σ',
     token_manual_instructions payer receiverPubkey mint tokenAccountA tokenAccountB
       mintRent tokenAccountRent σ = (Returned ixs, σ') ∧
     ∀ i ix m,
       ixs !! i = Some ix → programId ix = TOKEN_PROGRAM_ID →
       m ∈ keys ix → isWritable m = true →
       ∃ j, (j < i)%nat ∧ creates_account ixs j (pubkey m)).
Proof.
  intros Hm Ht. split.
  - destruct (mint_manual_run payer mint mintRent σ Hm) as (n0 & n1 & σ' & Hrun).
    eexists _, σ'. split; [exact Hrun|]. clear Hrun.
    intros i ix m Hix Hprog Hkey Hw. unfold creates_account.
    do 2 (destruct i as [|i];
          [ apply (inj Some) in Hix as <-; cbn [programId keys] in Hprog, Hkey;
            try discriminate Hprog;
            rewrite !elem_of_cons, elem_of_nil in Hkey;
            destruct_or!; try done; subst m; cbn [isWritable pubkey] in *;
            try discriminate Hw; created_earlier
          | cbn [lookup list_lookup] in Hix ]).
    done.
  - destruct (token_manual_run payer receiverPubkey mint tokenAccountA tokenAccountB
                mintRent tokenAccountRent σ Hm Ht)
      as (n0 & n1 & n2 & n3 & n4 & n5 & n6 & n7 & σ' & Hrun).
    eexists _, σ'. split; [exact Hrun|]. clear Hrun.
    intros i ix m Hix Hprog Hkey Hw. unfold creates_account.
    do 8 (destruct i as [|i];
          [ apply (inj Some) in Hix as <-; cbn [programId keys] in Hprog, Hkey;
            try discriminate Hprog;
            rewrite !elem_of_cons, elem_of_nil in Hkey;
            destruct_or!; try done; subst m; cbn [isWritable pubkey] in *;
            try discriminate Hw; created_earlier
          | cbn [lookup list_lookup] in Hix ]).
    done.
Qed.

Lemma accounts_are_created_before_use_witness :
  0 ≤ 1461600 ≤ 2 ^ 64 - 1 ∧ 0 ≤ 2039280 ≤ 2 ^ 64 - 1 ∧
  ∃ ixs σ',
    token_manual_instructions (mkPublicKey 1) (mkPublicKey 5) (mkPublicKey 2)
      (mkPublicKey 3) (mkPublicKey 4) 1461600 2039280 empty_store = (Returned ixs, σ') ∧
    ∀ i ix m,
      ixs !! i = Some ix → programId ix = TOKEN_PROGRAM_ID →
      m ∈ keys ix → isWritable m = true →
      ∃ j, (j < i)%nat ∧ creates_account ixs j (pubkey m).
Proof.
  split; [lia|]. split; [lia|].
  apply (accounts_are_created_before_use (mkPublicKey 1) (mkPublicKey 5)
           (mkPublicKey 2) (mkPublicKey 3) (mkPublicKey 4) 1461600 2039280 empty_store);
    lia.
Defined.

(** ** Reading the fields back *)

Lemma be_value_snoc acc bs b : be_value acc (bs ++ [b]) = be_value acc bs * 256 + b.
Proof. revert acc. induction bs as [|c bs IH]; intros acc; cbn; [done|apply IH]. Qed.

Lemma be_value_reverse bs : be_value 0 (reverse bs) = le_value bs.
Proof.
  induction bs as [|b bs IH]; [done|].
  rewrite reverse_cons, be_value_snoc, IH. cbn [le_value]. lia.
Qed.

Lemma be_value_toBuffer k : is_identity k → be_value 0 (toBuffer k) = bn k.
Proof.
  unfold is_identity, toBuffer. intros Hk.
  rewrite be_value_reverse, le_value_le_bytes.
  change (8 * Z.of_nat PUBLIC_KEY_LENGTH) with 256. apply Z.mod_small. lia.
Qed.

(** X9. The payload of an account allocation reads back as its
    arguments: bytes 0..3 are the number 0, bytes 4..11 the lamports and
    bytes 12..19 the space, each least significant byte first, and bytes
    20..51 are the owner, most significant byte first. *)
Theorem allocation_fields_read_back
    (σ : Store) (fromPubkey newAccountPubkey owner : PublicKey) (lamports space : Z) :
  0 ≤ lamports ≤ 2 ^ 64 - 1 → 0 ≤ space ≤ 2 ^ 64 - 1 → is_identity owner →
  ∃ d,
    describe (createAccountInstruction fromPubkey newAccountPubkey lamports space owner) σ
      = Returned d ∧
    le_value (take 4 (payload d)) = 0 ∧
    le_value (take 8 (drop 4 (payload d))) = lamports ∧
    le_value (take 8 (drop 12 (payload d))) = space ∧
    be_value 0 (drop 20 (payload d)) = bn owner.
Proof.
  intros Hl Hs Ho. eexists. split; [by apply describe_createAccountInstruction|].
  cbn [payload]. split_and!.
  - by rewrite take_app_length' by (by rewrite length_le_bytes).
  - rewrite drop_app_length' by (by rewrite length_le_bytes).
    rewrite take_app_length' by (by rewrite length_le_bytes).
    by apply le_value_le_bytes_u64.
  - rewrite (app_assoc (le_bytes 4 0)).
    rewrite drop_app_length' by (by rewrite length_app, !length_le_bytes).
    rewrite take_app_length' by (by rewrite length_le_bytes).
    by apply le_value_le_bytes_u64.
  - rewrite !app_assoc.
    rewrite drop_app_length' by (by rewrite !length_app, !length_le_bytes).
    by apply be_value_toBuffer.
Qed.

Lemma allocation_fields_read_back_witness :
  0 ≤ 2039280 ≤ 2 ^ 64 - 1 ∧ 0 ≤ 165 ≤ 2 ^ 64 - 1 ∧ is_identity TOKEN_PROGRAM_ID ∧
  ∃ d,
    describe (createAccountInstruction (mkPublicKey 1) (mkPublicKey 2) 2039280 165
                TOKEN_PROGRAM_ID) empty_store = Returned d ∧
    le_value (take 8 (drop 4 (payload d))) = 2039280 ∧
    le_value (take 8 (drop 12 (payload d))) = 165 ∧
    be_value 0 (drop 20 (payload d)) = bn TOKEN_PROGRAM_ID.
Proof.
  assert (Hid : is_identity TOKEN_PROGRAM_ID) by (unfold is_identity; cbn; lia).
  split; [lia|]. split; [lia|]. split; [exact Hid|].
  destruct (allocation_fields_read_back empty_store (mkPublicKey 1) (mkPublicKey 2)
              TOKEN_PROGRAM_ID 2039280 165) as (d & Hd & _ & Hl & Hs & Ho);
    [lia | lia | exact Hid |].
  exists d. by split_and!.
Defined.

(** X10. The payload of an initialize-mint reads back as its arguments:
    byte 1 is the decimals, bytes 2..33 are the mint authority, most
    significant byte first, and what follows tells the freeze authority:
    the single byte 0 when there is none, the byte 1 and then the 32 bytes
    of the authority when there is one.  The mint itself is not in the
    payload. *)
Theorem mint_fields_read_back
    (σ : Store) (mintPubkey mintAuthority : PublicKey)
    (freezeAuthority : option PublicKey) (decimals : Z) :
  0 ≤ decimals ≤ 255 → is_identity mintAuthority →
  match freezeAuthority with Some k => is_identity k | None => True end →
  ∃ d,
    describe (createInitializeMintInstruction mintPubkey decimals mintAuthority
                freezeAuthority) σ = Returned d ∧
    payload d !! 1%nat = Some decimals ∧
    be_value 0 (take 32 (drop 2 (payload d))) = bn mintAuthority ∧
    match freezeAuthority with
    | Some k => payload d !! 34%nat = Some 1 ∧ be_value 0 (drop 35 (payload d)) = bn k
    | None => drop 34 (payload d) = [0]
    end ∧
    ∀ other d',
      describe (createInitializeMintInstruction other decimals mintAuthority
                  freezeAuthority) σ = Returned d' →
      payload d' = payload d.
Proof.
  intros Hd Ha Hf. eexists.
  split; [by apply describe_createInitializeMintInstruction|].
  cbn [payload].
  assert (Hlen : length (0 :: decimals :: toBuffer mintAuthority) = 34%nat).
  { cbn [length]. by rewrite length_toBuffer. }
  split_and!.
  - reflexivity.
  - cbn [skipn]. rewrite ?drop_0.
    rewrite take_app_length' by (by rewrite length_toBuffer).
    by apply be_value_toBuffer.
  - rewrite !(app_comm_cons _ _ decimals), !(app_comm_cons _ _ 0).
    destruct freezeAuthority as [k|]; unfold freeze_bytes, freezeAuthOption.
    + split; [by rewrite list_lookup_middle|].
      rewrite (cons_middle 1), app_assoc.
      rewrite drop_app_length' by (rewrite length_app, Hlen; done).
      by apply be_value_toBuffer.
    + by rewrite drop_app_length'.
  - intros other d'.
    rewrite describe_createInitializeMintInstruction by done.
    intros Heq. apply Returned_inj in Heq. by rewrite <- Heq.
Qed.

Lemma mint_fields_read_back_witness :
  0 ≤ 9 ≤ 255 ∧ is_identity (mkPublicKey 2) ∧ is_identity (mkPublicKey 3) ∧
  ∃ d,
    describe (createInitializeMintInstruction (mkPublicKey 1) 9 (mkPublicKey 2)
                (Some (mkPublicKey 3))) empty_store = Returned d ∧
    payload d !! 1%nat = Some 9 ∧
    be_value 0 (take 32 (drop 2 (payload d))) = 2 ∧
    be_value 0 (drop 35 (payload d)) = 3.
Proof.
  assert (H2 : is_identity (mkPublicKey 2)) by (unfold is_identity; cbn; lia).
  assert (H3 : is_identity (mkPublicKey 3)) by (unfold is_identity; cbn; lia).
  split; [lia|]. split; [exact H2|]. split; [exact H3|].
  destruct (mint_fields_read_back empty_store (mkPublicKey 1) (mkPublicKey 2)
              (Some (mkPublicKey 3)) 9) as (d & Hd & Hdec & Hauth & [_ Hfreeze] & _);
    [lia | exact H2 | exact H3 |].
  exists d. by split_and!.
Defined.
